(** * WhatsApp order notification: a shallow embedding of the action

    The action receives an Adobe Commerce event (a JSON object), validates
    it, extracts the order, looks up the customer's telephone number,
    renders a message and hands it to the Twilio SDK.  The JavaScript
    sources are embedded function by function:

    - [utils.js]               -> Module [Utils]
    - [eventValidator.js]      -> Module [EventValidator]
    - [orderDataExtractor.js]  -> Module [OrderDataExtractor]
    - [phoneUtils.js]          -> Module [PhoneUtils]
    - [messageGenerator.js]    -> Module [MessageGenerator]
    - [twilioService.js]       -> Module [TwilioService]
    - [index.js]               -> Module [Index]

    JavaScript is dynamically typed, so every function works on the type
    [value] of JSON-like values; an operation that raises a [TypeError] in
    JavaScript returns [Throw] in the [result] type.  The logger has no
    influence on any returned value; of its calls only the printing of
    the values in their template literals is kept, which can throw. *)

From Stdlib Require Import ZArith List String Ascii Bool Lia.
From Stdlib Require Import Numbers.DecimalString.
Import ListNotations.

Local Open Scope string_scope.
Local Open Scope Z_scope.

Set Warnings "-register-all".

(** ** JavaScript values *)

Module Js.

(** A number is either an integer that JavaScript prints in plain
    digits, [Int n] with [n] below 10^21 in absolute value, or any other
    finite number (a fraction such as 99.99, or an integer from 10^21
    on), which is never zero and is given by its sign and by the text that
    JavaScript prints for it: [Dec true "99.99"], [Dec true "1e+21"]. *)
Inductive number : Type :=
| Int (n : Z)
| Dec (positive : bool) (text : string).

Coercion Int : Z >-> number.

(** Strings are sequences of code units, of which [string] carries the
    8-bit ones.  An object is the list of its properties in insertion
    order, and a property is read at its first entry. *)
Inductive value : Type :=
| VUndefined
| VNull
| VBool (b : bool)
| VNum (n : number)
| VStr (s : string)
| VArr (items : list value)
| VObj (props : list (string * value)).

Definition obj : Type := list (string * value).

(** An [Error] object as thrown by the runtime or by a library; only its
    [message] is ever read. *)
Record JsError : Type := Error { message : string }.

Inductive result (A : Type) : Type :=
| Ok (a : A)
| Throw (e : JsError).

Arguments Ok {A} a.
Arguments Throw {A} e.

Definition bind {A B : Type} (r : result A) (k : A -> result B) : result B :=
  match r with
  | Ok a => k a
  | Throw e => Throw e
  end.

Notation "x <- r ;; k" := (bind r (fun x => k))
  (at level 61, r at next level, right associativity).

(** [!v] is [negb (truthy v)]. *)
Definition truthy (v : value) : bool :=
  match v with
  | VUndefined | VNull => false
  | VBool b => b
  | VNum (Int n) => negb (n =? 0)
  | VNum (Dec _ _) => true
  | VStr s => negb (s =? "")%string
  | VArr _ | VObj _ => true
  end.

Definition nullish (v : value) : bool :=
  match v with
  | VUndefined | VNull => true
  | _ => false
  end.

(** [a || b] and [a && b] *)
Definition js_or (a b : value) : value := if truthy a then a else b.
Definition js_and (a b : value) : value := if truthy a then b else a.

Fixpoint lookup (k : string) (o : obj) : value :=
  match o with
  | [] => VUndefined
  | (k', v) :: rest => if (k =? k')%string then v else lookup k rest
  end.

Fixpoint has_key (k : string) (o : obj) : bool :=
  match o with
  | [] => false
  | (k', _) :: rest => (k =? k')%string || has_key k rest
  end.

(** [v?.k] for the property names the sources use (none of them is a
    property of a primitive wrapper or of [Array.prototype]). *)
Definition opt_get (v : value) (k : string) : value :=
  match v with
  | VObj o => lookup k o
  | _ => VUndefined
  end.

(** [v.k]: a [TypeError] on [null] and [undefined]. *)
Definition get (v : value) (k : string) : result value :=
  match v with
  | VUndefined =>
      Throw (Error ("Cannot read properties of undefined (reading '" ++ k ++ "')"))
  | VNull =>
      Throw (Error ("Cannot read properties of null (reading '" ++ k ++ "')"))
  | _ => Ok (opt_get v k)
  end.

(** [v?.[0]] *)
Definition opt_index0 (v : value) : value :=
  match v with
  | VArr (x :: _) => x
  | VStr (String c _) => VStr (String c "")
  | VObj o => lookup "0" o
  | _ => VUndefined
  end.

(** [s.startsWith(p)], [s.includes(needle)], [s.substring(n)] on strings *)
Fixpoint startsWith (p s : string) : bool :=
  match p with
  | EmptyString => true
  | String a p' =>
      match s with
      | EmptyString => false
      | String b s' => (a =? b)%char && startsWith p' s'
      end
  end.

Fixpoint includes (needle s : string) : bool :=
  startsWith needle s ||
  match s with
  | EmptyString => false
  | String _ s' => includes needle s'
  end.

Fixpoint drop (n : nat) (s : string) : string :=
  match n, s with
  | O, _ => s
  | S n', String _ s' => drop n' s'
  | S _, EmptyString => EmptyString
  end.

Fixpoint filter (keep : ascii -> bool) (s : string) : string :=
  match s with
  | EmptyString => EmptyString
  | String c s' => if keep c then String c (filter keep s') else filter keep s'
  end.

Fixpoint forallb (p : ascii -> bool) (s : string) : bool :=
  match s with
  | EmptyString => true
  | String c s' => p c && forallb p s'
  end.

Definition is_digit (c : ascii) : bool :=
  let n := nat_of_ascii c in (48 <=? n)%nat && (n <=? 57)%nat.

Definition is_plus (c : ascii) : bool := (c =? "+")%char.

(** White space of [String.prototype.trim] among the 8-bit code units:
    TAB, LF, VT, FF, CR, SP and NBSP. *)
Definition is_space (c : ascii) : bool :=
  let n := nat_of_ascii c in
  ((9 <=? n)%nat && (n <=? 13)%nat) || (n =? 32)%nat || (n =? 160)%nat.

Fixpoint trimStart (s : string) : string :=
  match s with
  | String c s' => if is_space c then trimStart s' else s
  | EmptyString => EmptyString
  end.

Fixpoint rev (s : string) : string :=
  match s with
  | EmptyString => EmptyString
  | String c s' => rev s' ++ String c EmptyString
  end.

Definition trim (s : string) : string := rev (trimStart (rev (trimStart s))).

Definition string_of_Z (n : Z) : string := NilZero.string_of_int (Z.to_int n).

Definition number_to_string (n : number) : string :=
  match n with
  | Int z => string_of_Z z
  | Dec _ text => text
  end.

(** [String(v)], the conversion a template literal applies to its holes.
    An object is printed by [Object.prototype.toString] unless it has a
    property [toString] of its own, which in data is never a function:
    the conversion then finds no method that returns a primitive value
    and throws.  An array prints its elements, null and undefined as the
    empty string, with commas between them. *)
Fixpoint toString (v : value) : result string :=
  match v with
  | VUndefined => Ok "undefined"
  | VNull => Ok "null"
  | VBool true => Ok "true"
  | VBool false => Ok "false"
  | VNum n => Ok (number_to_string n)
  | VStr s => Ok s
  | VArr items =>
      (fix join (xs : list value) : result string :=
         match xs with
         | [] => Ok ""
         | x :: rest =>
             head <- (if nullish x then Ok "" else toString x) ;;
             match rest with
             | [] => Ok head
             | _ :: _ => tail <- join rest ;; Ok (head ++ "," ++ tail)
             end
         end) items
  | VObj props =>
      if has_key "toString" props
      then Throw (Error "Cannot convert object to primitive value")
      else Ok "[object Object]"
  end.

(** Whether a value can be printed *)
Definition printable (v : value) : bool :=
  match toString v with
  | Ok _ => true
  | Throw _ => false
  end.

(** [a === b] where [b] is a string constant *)
Definition strict_eq_str (a : value) (b : string) : bool :=
  match a with
  | VStr s => (s =? b)%string
  | _ => false
  end.

(** [v.includes(needle)] with a string [needle]: substring search on a
    string, membership on an array, a [TypeError] on anything else. *)
Definition js_includes (v : value) (needle : string) : result bool :=
  match v with
  | VStr s => Ok (includes needle s)
  | VArr items => Ok (existsb (fun x => strict_eq_str x needle) items)
  | VUndefined =>
      Throw (Error "Cannot read properties of undefined (reading 'includes')")
  | VNull =>
      Throw (Error "Cannot read properties of null (reading 'includes')")
  | _ => Throw (Error "includes is not a function")
  end.

(** [v.length] *)
Definition js_length (v : value) : value :=
  match v with
  | VArr items => VNum (Int (Z.of_nat (List.length items)))
  | VStr s => VNum (Int (Z.of_nat (String.length s)))
  | VObj o => lookup "length" o
  | _ => VUndefined
  end.

(** [v === 0] *)
Definition strict_eq_zero (v : value) : bool :=
  match v with
  | VNum (Int n) => n =? 0
  | _ => false
  end.

(** The own enumerable properties that [{...v}] copies. *)
Fixpoint indexed (i : Z) (items : list value) : obj :=
  match items with
  | [] => []
  | x :: rest => (string_of_Z i, x) :: indexed (i + 1) rest
  end.

Fixpoint chars (s : string) : list value :=
  match s with
  | EmptyString => []
  | String c s' => VStr (String c "") :: chars s'
  end.

Definition own_props (v : value) : obj :=
  match v with
  | VObj o => o
  | VArr items => indexed 0 items
  | VStr s => indexed 0 (chars s)
  | _ => []
  end.

(** *** Effects

    The only effects of the action are its calls into the Twilio SDK.  A
    computation returns the calls it made, oldest first, and either a
    value or the error it threw. *)
Inductive event : Type :=
| TwilioClient (accountSid authToken : value)
| MessagesCreate (from to body : value).

Definition M (A : Type) : Type := (list event * result A)%type.

Definition ret {A : Type} (a : A) : M A := ([], Ok a).
Definition throw {A : Type} (e : JsError) : M A := ([], Throw e).
Definition lift {A : Type} (r : result A) : M A := ([], r).
Definition emit (ev : event) : M unit := ([ev], Ok tt).

Definition bindM {A B : Type} (m : M A) (k : A -> M B) : M B :=
  match m with
  | (t, Ok a) => let (t', r) := k a in ((t ++ t')%list, r)
  | (t, Throw e) => (t, Throw e)
  end.

(** [try { m } catch (e) { h e }] *)
Definition try_catch {A : Type} (m : M A) (h : JsError -> M A) : M A :=
  match m with
  | (t, Ok a) => (t, Ok a)
  | (t, Throw e) => let (t', r) := h e in ((t ++ t')%list, r)
  end.

Declare Scope io_scope.
Delimit Scope io_scope with io.
Notation "x <- m ;; k" := (bindM m (fun x => k))
  (at level 61, m at next level, right associativity) : io_scope.

End Js.

Import Js.

(** ** [actions/utils.js] *)

Module Utils.

(** Modelled from the spec: [errorResponse] of [actions/utils.js], which
    is not among the sources.  The spec gives the shape of a failure as
    [{error: {statusCode, body: {error: message}}}], and the tests read
    [response.error.statusCode] and [response.error.body.error]. *)
Definition errorResponse (statusCode : Z) (message : string) : value :=
  VObj [("error",
         VObj [("statusCode", VNum statusCode);
               ("body", VObj [("error", VStr message)])])].

End Utils.

Import Utils.

(** ** [eventValidator.js] *)

Module EventValidator.

Definition ALLOWED_EVENT_TYPES : list string :=
  [ "com.adobe.commerce.observer.sales_order_place_after";
    "com.adobe.commerce.observer.sales_order_save_after";
    "com.adobe.commerce.observer.sales_order_shipment_save_after";
    "com.adobe.commerce.observer.sales_order_cancel_after" ].

Definition validateCloudEventStructure (params : obj) : value :=
  if negb (truthy (lookup "type" params)) || negb (truthy (lookup "source" params))
  then errorResponse 400 "Invalid event structure"
  else VNull.

Definition validateCommerceEvent (params : obj) : result value :=
  let type := lookup "type" params in
  let source := lookup "source" params in
  isCommerceEvent <-
    (if truthy type
     then b <- js_includes type "com.adobe.commerce" ;; Ok (VBool b)
     else Ok type) ;;
  if negb (truthy isCommerceEvent)
  then
    (* the line for the log prints [params.type] *)
    _ <- toString type ;;
    Ok (errorResponse 400 "Invalid event source - not a Commerce event")
  else
    (* the warning goes to the log only; its line prints [params.source] *)
    warn <- (if truthy source
             then b <- js_includes source "com.adobe.commerce" ;; Ok (negb b)
             else Ok false) ;;
    _ <- (if (warn : bool) then toString source else Ok "") ;;
    Ok VNull.

(** [ALLOWED_EVENT_TYPES.includes(eventType)] compares with [===].  The
    line for the log and the message of the response both print
    [eventType]. *)
Definition validateEventType (eventType : value) : result value :=
  if negb (existsb (strict_eq_str eventType) ALLOWED_EVENT_TYPES)
  then
    printed <- toString eventType ;;
    Ok (errorResponse 400 ("Unauthorized event type: " ++ printed))
  else Ok VNull.

Definition validateEvent (params : obj) : result value :=
  let error := validateCloudEventStructure params in
  if truthy error then Ok error else
  error <- validateCommerceEvent params ;;
  if truthy error then Ok error else
  error <- validateEventType (lookup "type" params) ;;
  if truthy error then Ok error else
  Ok VNull.

End EventValidator.

(** ** [orderDataExtractor.js] *)

Module OrderDataExtractor.

(** [data?.value?.shipment || null] *)
Definition extractShipmentData (data : value) : value :=
  js_or (opt_get (opt_get data "value") "shipment") VNull.

(** [shipmentData.order] is read only when [shipmentData] is truthy, so
    the access cannot throw. *)
Definition extractOrderData (data shipmentData : value) (isShipmentEvent : bool)
  : value :=
  if isShipmentEvent && truthy shipmentData
  then js_or (js_or (js_or (opt_get shipmentData "order")
                           (opt_get (opt_get data "value") "order"))
                    (opt_get data "value"))
             VNull
  else js_or (js_or (opt_get (opt_get data "value") "order")
                    (opt_get data "value"))
             VNull.

Definition extractOrderInfo (orderData : value) : result value :=
  increment_id <- get orderData "increment_id" ;;
  entity_id <- get orderData "entity_id" ;;
  customer_email <- get orderData "customer_email" ;;
  customer_firstname <- get orderData "customer_firstname" ;;
  customer_lastname <- get orderData "customer_lastname" ;;
  grand_total <- get orderData "grand_total" ;;
  order_currency_code <- get orderData "order_currency_code" ;;
  status <- get orderData "status" ;;
  state <- get orderData "state" ;;
  firstname <- toString (js_or customer_firstname (VStr "")) ;;
  lastname <- toString (js_or customer_lastname (VStr "")) ;;
  Ok (VObj
        [("orderNumber", js_or increment_id entity_id);
         ("customerEmail", customer_email);
         ("customerName", VStr (trim (firstname ++ " " ++ lastname)));
         ("orderTotal", grand_total);
         ("orderCurrency", order_currency_code);
         ("orderStatus", js_or status state)]).

Definition extractTrackingNumber (shipmentData : value) : result value :=
  if negb (truthy shipmentData)
     || negb (truthy (opt_get shipmentData "tracks"))
     || strict_eq_zero (js_length (opt_get shipmentData "tracks"))
  then Ok VNull
  else
    let track := opt_index0 (opt_get shipmentData "tracks") in
    track_number <- get track "track_number" ;;
    number <- get track "number" ;;
    Ok (js_or (js_or track_number number) VNull).

Definition extractEventData (params : obj) (eventType : value) : result value :=
  isShipmentEvent <- js_includes eventType "sales_order_shipment_save_after" ;;
  let shipmentData :=
    if isShipmentEvent then extractShipmentData (lookup "data" params) else VNull in
  let orderData :=
    extractOrderData (lookup "data" params) shipmentData isShipmentEvent in
  if negb (truthy orderData) then
    if isShipmentEvent && negb (truthy shipmentData)
    then Ok (VObj [("error", errorResponse 400 "Missing shipment data")])
    else Ok (VObj [("error", errorResponse 400 "Missing order data")])
  else
    Ok (VObj [("orderData", orderData); ("shipmentData", shipmentData)]).

End OrderDataExtractor.

(** ** [phoneUtils.js] *)

Module PhoneUtils.

(** [phoneNumber.replace(/[^\d+]/g, '')]: the class [[^\d+]] is every
    character that is neither a digit nor a plus sign. *)
Definition replace_non_digit_plus (s : string) : string :=
  filter (fun c => is_digit c || is_plus c) s.

Definition formatPhoneNumber (phoneNumber : value) : result value :=
  if negb (truthy phoneNumber) then Ok VNull else
  match phoneNumber with
  | VStr s =>
      let cleaned := replace_non_digit_plus s in
      if startsWith "+" cleaned then Ok (VStr cleaned)
      else if startsWith "00" cleaned then
        let cleaned := "+" ++ drop 2 cleaned in
        Ok (VStr cleaned)
      else if (String.length cleaned =? 10)%nat then Ok (VStr ("+1" ++ cleaned))
      else if negb (startsWith "+" cleaned) then Ok (VStr ("+" ++ cleaned))
      else Ok (VStr cleaned)
  | _ => Throw (Error "phoneNumber.replace is not a function")
  end.

Section Coercion.

(** Whether [Number(s) > 0] for a string [s].  The numeric grammar of
    strings is not embedded; it is consulted only for an [addresses]
    property that is no array and carries a [length] of its own. *)
Variable string_is_positive : string -> bool.

(** [v > 0]: an array or an object is first converted to a primitive
    value, which for an array is its printed form and for an object the
    text "[object Object]", no number, unless the conversion throws. *)
Definition js_gt_zero (v : value) : result bool :=
  match v with
  | VNum (Int n) => Ok (0 <? n)
  | VNum (Dec positive _) => Ok positive
  | VBool b => Ok b
  | VStr s => Ok (string_is_positive s)
  | VArr _ => printed <- toString v ;; Ok (string_is_positive printed)
  | VObj _ => _ <- toString v ;; Ok false
  | VUndefined | VNull => Ok false
  end.

(** [for (const address of items) if (address.telephone) return ...] *)
Fixpoint scan_addresses (items : list value) : result (option value) :=
  match items with
  | [] => Ok None
  | address :: rest =>
      telephone <- get address "telephone" ;;
      if truthy telephone then Ok (Some telephone) else scan_addresses rest
  end.

(** The loop over [orderData.addresses]: an array yields its elements, a
    string its characters, anything else is not iterable. *)
Definition for_of_addresses (addresses : value) : result (option value) :=
  match addresses with
  | VArr items => scan_addresses items
  | VStr s => scan_addresses (chars s)
  | _ => Throw (Error "orderData.addresses is not iterable")
  end.

Definition extractPhoneNumberFromOrder (orderData : value) : result value :=
  if negb (truthy orderData) then Ok VNull else
  let addresses := opt_get orderData "addresses" in
  found <-
    (if truthy addresses
     then
       positive <- js_gt_zero (js_length addresses) ;;
       if (positive : bool) then for_of_addresses addresses else Ok None
     else Ok None) ;;
  match found with
  | Some telephone => Ok telephone
  | None =>
      if truthy (opt_get (opt_get orderData "billing_address") "telephone")
      then Ok (opt_get (opt_get orderData "billing_address") "telephone")
      else if truthy (opt_get (opt_get orderData "shipping_address") "telephone")
      then Ok (opt_get (opt_get orderData "shipping_address") "telephone")
      else Ok VNull
  end.

End Coercion.

Definition formatPhoneForWhatsApp (phoneNumber : value) : result value :=
  formatted <- formatPhoneNumber phoneNumber ;;
  if negb (truthy formatted) then Ok VNull else
  match formatted with
  | VStr f =>
      if startsWith "whatsapp:" f then Ok formatted
      else Ok (VStr ("whatsapp:" ++ f))
  | _ => Throw (Error "formatted.startsWith is not a function")
  end.

End PhoneUtils.

(** ** [messageGenerator.js] *)

Module MessageGenerator.

Definition generateOrderPlacedMessage
  (customerName orderNumber orderTotal orderCurrency : value) : result string :=
  name <- toString customerName ;;
  number <- toString orderNumber ;;
  total <- toString orderTotal ;;
  currency <- toString orderCurrency ;;
  Ok ("Hi " ++ name ++ ", your order #" ++ number ++ " for " ++ total ++ " " ++
      currency ++ " has been confirmed. Thank you for your purchase!").

Definition generateOrderStatusChangeMessage
  (customerName orderNumber orderStatus : value) : result string :=
  name <- toString customerName ;;
  number <- toString orderNumber ;;
  status <- toString orderStatus ;;
  Ok ("Hi " ++ name ++ ", your order #" ++ number ++
      " status has been updated to " ++ status ++ ".").

Definition generateShipmentMessage
  (customerName orderNumber trackingNumber : value) : result string :=
  if truthy trackingNumber then
    name <- toString customerName ;;
    number <- toString orderNumber ;;
    tracking <- toString trackingNumber ;;
    Ok ("Hi " ++ name ++ ", your order #" ++ number ++
        " has been shipped! Track your package using tracking number " ++
        tracking ++ ".")
  else
    name <- toString customerName ;;
    number <- toString orderNumber ;;
    Ok ("Hi " ++ name ++ ", your order #" ++ number ++ " has been shipped!").

Definition generateCancellationMessage (customerName orderNumber : value)
  : result string :=
  name <- toString customerName ;;
  number <- toString orderNumber ;;
  Ok ("Hi " ++ name ++ ", your order #" ++ number ++
      " has been cancelled. If you have any questions, please contact us.").

(** The first track of a shipment: [shipmentData?.tracks?.[0]] *)
Definition first_track (shipmentData : value) : value :=
  opt_index0 (opt_get shipmentData "tracks").

Definition generateMessageByEventType
  (eventType orderData customerName orderNumber shipmentData : value)
  : result string :=
  (* default parameter [shipmentData = null] *)
  let shipmentData :=
    match shipmentData with VUndefined => VNull | _ => shipmentData end in
  let isOrderCancelled :=
    strict_eq_str eventType "com.adobe.commerce.observer.sales_order_cancel_after" in
  let isOrderPlaced :=
    strict_eq_str eventType "com.adobe.commerce.observer.sales_order_place_after" in
  let isShipmentCreated :=
    strict_eq_str eventType
      "com.adobe.commerce.observer.sales_order_shipment_save_after" in
  let isOrderSaved :=
    strict_eq_str eventType "com.adobe.commerce.observer.sales_order_save_after" in
  orderTotal <- get orderData "grand_total" ;;
  orderCurrency <- get orderData "order_currency_code" ;;
  status <- get orderData "status" ;;
  state <- get orderData "state" ;;
  let orderStatus := js_or status state in
  if isOrderCancelled then
    generateCancellationMessage customerName orderNumber
  else if isOrderPlaced then
    generateOrderPlacedMessage customerName orderNumber orderTotal orderCurrency
  else if isShipmentCreated then
    let trackingNumber :=
      js_or (opt_get (first_track shipmentData) "track_number")
            (opt_get (first_track shipmentData) "number") in
    generateShipmentMessage customerName orderNumber trackingNumber
  else if isOrderSaved && truthy orderStatus then
    generateOrderStatusChangeMessage customerName orderNumber orderStatus
  else
    generateOrderPlacedMessage customerName orderNumber orderTotal orderCurrency.

End MessageGenerator.

(** ** [twilioService.js] *)

Module TwilioService.

Import PhoneUtils.

(** The configuration object [{accountSid, authToken, fromNumber}]. *)
Record TwilioConfig : Type := {
  accountSid : value;
  authToken : value;
  fromNumber : value
}.

(** A Twilio client: [messages.create({from, to, body})] resolves with a
    message object or rejects with an error.  The lines that
    [sendWhatsAppMessage] writes to the log print the formatted recipient
    and the [sid] of the answer, both strings, and the message of a caught
    error. *)
Definition Client : Type := value -> value -> value -> result value.

Section WithSdk.

(** The SDK's constructor [twilio(accountSid, authToken)], which returns
    a client or throws. *)
Variable twilio : value -> value -> result Client.

Local Open Scope io_scope.

Definition new_client (sid token : value) : M Client :=
  _ <- emit (TwilioClient sid token) ;; lift (twilio sid token).

Definition messages_create (c : Client) (from to body : value) : M value :=
  _ <- emit (MessagesCreate from to body) ;; lift (c from to body).

Definition sendWhatsAppMessage (config : TwilioConfig) (toPhoneNumber message : value)
  : M value :=
  if negb (truthy (accountSid config)) || negb (truthy (authToken config))
     || negb (truthy (fromNumber config))
  then
    let error :=
      "Twilio configuration missing - WhatsApp notifications will not be sent" in
    ret (VObj [("success", VBool false); ("error", VStr error)])
  else
    try_catch
      (twilioClient <- new_client (accountSid config) (authToken config) ;;
       whatsappTo <- lift (formatPhoneForWhatsApp toPhoneNumber) ;;
       if negb (truthy whatsappTo)
       then throw (Error "Invalid phone number format")
       else
         twilioMessage <-
           messages_create twilioClient (fromNumber config) whatsappTo message ;;
         sid <- lift (get twilioMessage "sid") ;;
         status <- lift (get twilioMessage "status") ;;
         ret (VObj [("success", VBool true);
                    ("messageSid", sid);
                    ("status", status)]))
      (fun error =>
         let errorMessage :=
           js_or (VStr (Js.message error)) (VStr "Unknown Twilio error") in
         ret (VObj [("success", VBool false); ("error", errorMessage)])).

End WithSdk.

End TwilioService.

(** ** [index.js] *)

Module Index.

Import EventValidator OrderDataExtractor PhoneUtils MessageGenerator TwilioService.

Section WithPlatform.

Variable string_is_positive : string -> bool.
Variable twilio : value -> value -> result Client.

Local Open Scope io_scope.

(** The body of the [try] block of [main].  Of the calls of the logger
    the evaluation of their template literals is kept, since printing a
    value can throw; the debug output of [stringParameters], which
    serializes the parameters, is left out. *)
Definition main_try (params : obj) : M value :=
  if truthy (lookup "challenge" params) then
    ret (VObj [("statusCode", VNum 200);
               ("body", VObj [("challenge", lookup "challenge" params)])])
  else
    validationError <- lift (validateEvent params) ;;
    if truthy validationError then ret validationError else
    let eventType := lookup "type" params in
    (* logger.info(`Processing event type: ${eventType}`) *)
    _ <- lift (toString eventType) ;;
    extracted <- lift (extractEventData params eventType) ;;
    let orderData := opt_get extracted "orderData" in
    let shipmentData := opt_get extracted "shipmentData" in
    let extractionError := opt_get extracted "error" in
    if truthy extractionError then ret extractionError else
    orderInfo <- lift (extractOrderInfo orderData) ;;
    let orderNumber := opt_get orderInfo "orderNumber" in
    let customerEmail := opt_get orderInfo "customerEmail" in
    let customerName := opt_get orderInfo "customerName" in
    (* logger.info(`Processing order ${orderNumber} for customer ${customerEmail}`) *)
    _ <- lift (toString orderNumber) ;;
    _ <- lift (toString customerEmail) ;;
    customerPhone <- lift (extractPhoneNumberFromOrder string_is_positive orderData) ;;
    if negb (truthy customerPhone)
    then
      (* logger.warn(`No phone number found for order ${orderNumber}`) *)
      _ <- lift (toString orderNumber) ;;
      ret (errorResponse 400 "Customer phone number not found")
    else
      message <-
        lift (generateMessageByEventType
                eventType orderData customerName orderNumber shipmentData) ;;
      let twilioConfig :=
        {| accountSid := lookup "TWILIO_ACCOUNT_SID" params;
           authToken := lookup "TWILIO_AUTH_TOKEN" params;
           fromNumber := lookup "TWILIO_WHATSAPP_FROM" params |} in
      twilioResult <-
        sendWhatsAppMessage twilio twilioConfig customerPhone (VStr message) ;;
      let responseBody :=
        VObj ([("success", VBool true);
               ("message", VStr "Order notification processed");
               ("orderNumber", orderNumber);
               ("customerPhone", customerPhone);
               ("whatsappSent", opt_get twilioResult "success")]
              ++ own_props
                   (js_and (opt_get twilioResult "error")
                           (VObj [("whatsappError", opt_get twilioResult "error")])))%list
      in
      (* logger.info(`... WhatsApp sent: ${twilioResult.success}`) *)
      _ <- lift (toString (opt_get twilioResult "success")) ;;
      ret (VObj [("statusCode", VNum 200); ("body", responseBody)]).

Definition main (params : obj) : M value :=
  try_catch (main_try params)
            (fun _ => ret (errorResponse 500 "Internal server error")).

End WithPlatform.

End Index.

(** * Vocabulary of the statements, and the data of the test suite *)

Import EventValidator OrderDataExtractor PhoneUtils MessageGenerator.
Import TwilioService Index.

(** A string of digits with at most one plus sign, in leading position. *)
Definition digits_after_leading_plus (r : string) : bool :=
  match r with
  | EmptyString => true
  | String c r' => (is_digit c || is_plus c) && Js.forallb is_digit r'
  end.

Definition is_letter (c : ascii) : bool :=
  let n := nat_of_ascii c in
  ((65 <=? n)%nat && (n <=? 90)%nat) || ((97 <=? n)%nat && (n <=? 122)%nat).

(** The claim's last requirement on the third check: the message names
    every allowed type. *)
Definition message_includes_allow_list (msg : string) : Prop :=
  forall a : string, In a ALLOWED_EVENT_TYPES -> includes a msg = true.

Definition envelope (type source : value) : obj :=
  [("type", type); ("source", source)].

(** The claim's words "absent or empty", read on JSON values: undefined,
    null, the empty string, the empty array and the empty object. *)
Definition absent_or_empty (v : value) : bool :=
  match v with
  | VUndefined | VNull | VStr EmptyString | VArr [] | VObj [] => true
  | _ => false
  end.

Definition event_with_data (data : value) : obj := [("data", data)].

Definition CANCEL_AFTER : string :=
  "com.adobe.commerce.observer.sales_order_cancel_after".
Definition PLACE_AFTER : string :=
  "com.adobe.commerce.observer.sales_order_place_after".
Definition SHIPMENT_SAVE_AFTER : string :=
  "com.adobe.commerce.observer.sales_order_shipment_save_after".
Definition SAVE_AFTER : string :=
  "com.adobe.commerce.observer.sales_order_save_after".

(** The orders and the shipment of the test suite, and an order with a
    decimal total. *)
Definition order_placed : value :=
  VObj [("increment_id", VStr "000000008");
        ("customer_email", VStr "test@example.com");
        ("customer_firstname", VStr "Test");
        ("customer_lastname", VStr "Customer");
        ("addresses", VArr [VObj [("telephone", VStr "1234567890")]]);
        ("grand_total", VNum 100);
        ("order_currency_code", VStr "USD")].

Definition order_processing : value :=
  VObj [("increment_id", VStr "000000009");
        ("customer_email", VStr "test2@example.com");
        ("customer_firstname", VStr "Jane");
        ("customer_lastname", VStr "Doe");
        ("addresses", VArr [VObj [("telephone", VStr "+15551234567")]]);
        ("status", VStr "processing");
        ("grand_total", VNum 200);
        ("order_currency_code", VStr "USD")].

Definition order_decimal : value :=
  VObj [("increment_id", VStr "000000014");
        ("grand_total", VNum (Dec true "99.99"));
        ("order_currency_code", VStr "EUR")].

Definition shipment_tracked : value :=
  VObj [("order", VObj [("increment_id", VStr "000000010")]);
        ("tracks", VArr [VObj [("track_number", VStr "TRACK123456")]])].

(** The text that the [catch] block reports for a thrown error: its
    message, or "Unknown Twilio error" when the error carries none. *)
Definition reported_message (e : JsError) : string :=
  if (Js.message e =? "")%string then "Unknown Twilio error" else Js.message e.

Definition failure (text : string) : value :=
  VObj [("success", VBool false); ("error", VStr text)].

Definition config_missing (config : TwilioConfig) : bool :=
  negb (truthy (accountSid config)) || negb (truthy (authToken config))
  || negb (truthy (fromNumber config)).

(** SDK behaviours for the examples: the client of the tests, which
    resolves with [{sid: 'SM123456'}], a client whose [messages.create]
    rejects, and a constructor that throws. *)
Definition twilio_resolves : value -> value -> result Client :=
  fun _ _ => Ok (fun _ _ _ => Ok (VObj [("sid", VStr "SM123456")])).

Definition twilio_rejects : value -> value -> result Client :=
  fun _ _ => Ok (fun _ _ _ => Throw (Error "Twilio API Error")).


Definition test_config : TwilioConfig :=
  {| accountSid := VStr "test_sid";
     authToken := VStr "test_token";
     fromNumber := VStr "whatsapp:+1234567890" |}.


(** The value that [sendWhatsAppMessage] returns is a success record
    without [error], or a failure record with a non-empty [error]. *)
Definition send_result (v : value) : Prop :=
  (exists sid status : value,
     v = VObj [("success", VBool true); ("messageSid", sid); ("status", status)]) \/
  (exists text : string, text <> "" /\ v = failure text).

(** The body of the final response *)
Definition response_body (orderNumber customerPhone twilioResult : value) : obj :=
  ([("success", VBool true);
    ("message", VStr "Order notification processed");
    ("orderNumber", orderNumber);
    ("customerPhone", customerPhone);
    ("whatsappSent", opt_get twilioResult "success")]
   ++ own_props
        (js_and (opt_get twilioResult "error")
                (VObj [("whatsappError", opt_get twilioResult "error")])))%list.

(** The order-placed event of the tests, with and without the Twilio
    parameters. *)
Definition mockOrderPlacedEvent : obj :=
  [("type", VStr "com.adobe.commerce.observer.sales_order_place_after");
   ("source", VStr "com.adobe.commerce");
   ("event_id", VStr "test-event-123");
   ("data", VObj [("value", VObj [("order", order_placed)])])].

Definition eventWithTwilio : obj :=
  (mockOrderPlacedEvent ++
   [("TWILIO_ACCOUNT_SID", VStr "test_sid");
    ("TWILIO_AUTH_TOKEN", VStr "test_token");
    ("TWILIO_WHATSAPP_FROM", VStr "whatsapp:+1234567890")])%list.

(** Whether a string begins with a white-space character. *)
Definition starts_with_space (s : string) : bool :=
  match s with
  | String c _ => is_space c
  | EmptyString => false
  end.

(** The tracking number as [generateMessageByEventType] reads it. *)
Definition inline_tracking (shipmentData : value) : value :=
  js_or (opt_get (first_track shipmentData) "track_number")
        (opt_get (first_track shipmentData) "number").

(** The configuration that [main] builds from its parameters. *)
Definition twilio_config_of (params : obj) : TwilioConfig :=
  {| accountSid := lookup "TWILIO_ACCOUNT_SID" params;
     authToken := lookup "TWILIO_AUTH_TOKEN" params;
     fromNumber := lookup "TWILIO_WHATSAPP_FROM" params |}.

(** The event of the tests whose order has no telephone. *)
Definition eventNoPhone : obj :=
  (envelope (VStr PLACE_AFTER) (VStr "com.adobe.commerce")
   ++ [("data",
        VObj [("value",
          VObj [("order",
            VObj [("increment_id", VStr "000000012");
                  ("addresses", VArr [VObj []])])])])])%list.

(** The order fields and the tracking number that the message of an
    event prints, besides the customer name and the order number. *)
Definition printed_fields (eventType orderData shipmentData : value) : list value :=
  let total := opt_get orderData "grand_total" in
  let currency := opt_get orderData "order_currency_code" in
  let status := js_or (opt_get orderData "status") (opt_get orderData "state") in
  if strict_eq_str eventType CANCEL_AFTER then []
  else if strict_eq_str eventType PLACE_AFTER then [total; currency]
  else if strict_eq_str eventType SHIPMENT_SAVE_AFTER then
    if truthy (inline_tracking shipmentData)
    then [inline_tracking shipmentData] else []
  else if strict_eq_str eventType SAVE_AFTER && truthy status then [status]
  else [total; currency].

(** An order-placed event whose order number cannot be printed and whose
    order has no telephone. *)
Definition eventUnprintableNumber : obj :=
  (envelope (VStr PLACE_AFTER) (VStr "com.adobe.commerce")
   ++ [("data",
        VObj [("value",
          VObj [("order",
            VObj [("increment_id", VObj [("toString", VNum 1)])])])])])%list.

(** The claim's words "a string of exactly 10 digits". *)
Definition ten_digits (s : string) : bool :=
  Js.forallb is_digit s && (String.length s =? 10)%nat.

(** * Properties *)

(** ** Strings *)

Lemma filter_id (p : ascii -> bool) (s : string) :
  Js.forallb p s = true -> Js.filter p s = s.
Proof.
  induction s as [|c s IH]; simpl; intros H; [reflexivity|].
  apply andb_true_iff in H as [Hc Hs].
  rewrite Hc, (IH Hs). reflexivity.
Qed.

Lemma filter_forallb (p : ascii -> bool) (s : string) :
  Js.forallb p (Js.filter p s) = true.
Proof.
  induction s as [|c s IH]; simpl; [reflexivity|].
  destruct (p c) eqn:Hc; simpl; [rewrite Hc|]; exact IH.
Qed.

Lemma forallb_impl (p q : ascii -> bool) (s : string) :
  (forall c, p c = true -> q c = true) ->
  Js.forallb p s = true -> Js.forallb q s = true.
Proof.
  intros Hpq. induction s as [|c s IH]; simpl; [reflexivity|].
  intros H. apply andb_true_iff in H as [Hc Hs].
  rewrite (Hpq _ Hc), (IH Hs). reflexivity.
Qed.

Lemma filter_none (p : ascii -> bool) (s : string) :
  Js.forallb (fun c => negb (p c)) s = true -> Js.filter p s = "".
Proof.
  induction s as [|c s IH]; simpl; intros H; [reflexivity|].
  apply andb_true_iff in H as [Hc Hs].
  apply negb_true_iff in Hc. rewrite Hc. exact (IH Hs).
Qed.

Lemma truthy_VStr (s : string) : truthy (VStr s) = true <-> s <> "".
Proof.
  simpl. rewrite negb_true_iff. split.
  - intros H ->. discriminate.
  - intros H. destruct s; [contradiction|reflexivity].
Qed.

(** ** Phone utilities *)

(** The value of [formatPhoneNumber] on a non-empty string, with the
    unreachable last [return] of the source removed. *)
Lemma formatPhoneNumber_string (s : string) :
  s <> "" ->
  formatPhoneNumber (VStr s) =
  Ok (VStr (let cleaned := replace_non_digit_plus s in
            if startsWith "+" cleaned then cleaned
            else if startsWith "00" cleaned then "+" ++ drop 2 cleaned
            else if (String.length cleaned =? 10)%nat then "+1" ++ cleaned
            else "+" ++ cleaned)).
Proof.
  intros Hs. unfold formatPhoneNumber.
  apply truthy_VStr in Hs. rewrite Hs. cbn [negb].
  cbv zeta.
  destruct (startsWith "+" (replace_non_digit_plus s)) eqn:Hplus; [reflexivity|].
  destruct (startsWith "00" (replace_non_digit_plus s)); [reflexivity|].
  destruct (String.length (replace_non_digit_plus s) =? 10)%nat; reflexivity.
Qed.

Lemma startsWith_plus_cons (s : string) : startsWith "+" ("+" ++ s) = true.
Proof. reflexivity. Qed.

(** Every result of [formatPhoneNumber] starts with a plus sign. *)
Lemma formatPhoneNumber_starts_with_plus (s r : string) :
  formatPhoneNumber (VStr s) = Ok (VStr r) -> startsWith "+" r = true.
Proof.
  destruct s as [|c s]; [discriminate|].
  rewrite formatPhoneNumber_string by discriminate. cbv zeta.
  destruct (startsWith "+" _) eqn:Hplus.
  - intros [= <-]. exact Hplus.
  - destruct (startsWith "00" _); [intros [= <-]; apply startsWith_plus_cons|].
    destruct (_ =? _)%nat; intros [= <-];
      [apply (startsWith_plus_cons (String "1" _)) | apply startsWith_plus_cons].
Qed.

Lemma forallb_drop (p : ascii -> bool) (n : nat) (s : string) :
  Js.forallb p s = true -> Js.forallb p (drop n s) = true.
Proof.
  revert s. induction n as [|n IH]; intros s H; [exact H|].
  destruct s as [|c s]; [reflexivity|]. simpl in *.
  apply andb_true_iff in H as [_ H]. exact (IH _ H).
Qed.

(** What the cleaning does guarantee: the result holds digits and plus
    signs only. *)
Lemma formatPhoneNumber_digits_and_pluses (s r : string) :
  formatPhoneNumber (VStr s) = Ok (VStr r) ->
  Js.forallb (fun c => is_digit c || is_plus c) r = true.
Proof.
  destruct s as [|c s]; [discriminate|].
  rewrite formatPhoneNumber_string by discriminate. cbv zeta.
  pose proof (filter_forallb (fun c => is_digit c || is_plus c) (String c s)) as Hc.
  fold (replace_non_digit_plus (String c s)) in Hc.
  destruct (startsWith "+" _).
  - intros [= <-]. exact Hc.
  - destruct (startsWith "00" _).
    + intros [= <-]. simpl. apply forallb_drop with (n := 2%nat). exact Hc.
    + destruct (_ =? _)%nat; intros [= <-]; simpl; exact Hc.
Qed.

(** [formatPhoneNumber] is idempotent on all its results. *)
Lemma formatPhoneNumber_idempotent (s r : string) :
  formatPhoneNumber (VStr s) = Ok (VStr r) ->
  formatPhoneNumber (VStr r) = Ok (VStr r).
Proof.
  intros H.
  pose proof (formatPhoneNumber_starts_with_plus s r H) as Hplus.
  pose proof (formatPhoneNumber_digits_and_pluses s r H) as Hchars.
  assert (Hr : r <> "") by (intros ->; discriminate).
  rewrite (formatPhoneNumber_string r Hr). cbv zeta.
  unfold replace_non_digit_plus. rewrite (filter_id _ r Hchars), Hplus.
  reflexivity.
Qed.

Lemma is_digit_keep (c : ascii) : is_digit c = true -> is_digit c || is_plus c = true.
Proof. intros ->. reflexivity. Qed.

(** X26.  [formatPhoneNumber] applies its rules in the order of the
    source: a null, undefined or empty input gives null; otherwise the
    input is cleaned, and a cleaned string that starts with '+' is
    returned as it is, else one that starts with "00" has these two
    characters replaced by '+', else one of exactly 10 characters (the
    source tests the length, so digits and later plus signs both count)
    gets "+1" in front, else it gets '+' in front.  An E.164 number, '+'
    followed by digits, is returned unchanged, and the three examples of
    the specification evaluate as stated. *)
Theorem formatPhoneNumber_rules_in_order :
  (formatPhoneNumber VNull = Ok VNull /\
   formatPhoneNumber VUndefined = Ok VNull /\
   formatPhoneNumber (VStr "") = Ok VNull) /\
  (forall s : string, s <> "" ->
     let cleaned := replace_non_digit_plus s in
     (startsWith "+" cleaned = true ->
      formatPhoneNumber (VStr s) = Ok (VStr cleaned)) /\
     (startsWith "+" cleaned = false -> startsWith "00" cleaned = true ->
      formatPhoneNumber (VStr s) = Ok (VStr ("+" ++ drop 2 cleaned))) /\
     (startsWith "+" cleaned = false -> startsWith "00" cleaned = false ->
      String.length cleaned = 10%nat ->
      formatPhoneNumber (VStr s) = Ok (VStr ("+1" ++ cleaned))) /\
     (startsWith "+" cleaned = false -> startsWith "00" cleaned = false ->
      String.length cleaned <> 10%nat ->
      formatPhoneNumber (VStr s) = Ok (VStr ("+" ++ cleaned)))) /\
  (forall digits : string, Js.forallb is_digit digits = true ->
     formatPhoneNumber (VStr ("+" ++ digits)) = Ok (VStr ("+" ++ digits))) /\
  (formatPhoneNumber (VStr "+14155552671") = Ok (VStr "+14155552671") /\
   formatPhoneNumber (VStr "001234567890") = Ok (VStr "+1234567890") /\
   formatPhoneNumber (VStr "1234567890") = Ok (VStr "+11234567890")).
Proof.
  split; [repeat split; reflexivity|].
  split.
  { intros s Hs cleaned. rewrite (formatPhoneNumber_string s Hs).
    fold cleaned. cbv zeta. repeat split.
    - intros ->. reflexivity.
    - intros -> ->. reflexivity.
    - intros -> -> ->. reflexivity.
    - intros -> -> Hlen. apply Nat.eqb_neq in Hlen. rewrite Hlen. reflexivity. }
  split; [|repeat split; reflexivity].
  intros digits Hd.
  rewrite formatPhoneNumber_string by discriminate. cbv zeta.
  unfold replace_non_digit_plus. simpl.
  rewrite (filter_id _ digits); [reflexivity|].
  revert Hd. apply forallb_impl. exact is_digit_keep.
Qed.

(** The four rules of X26 on inputs that each reach one of them. *)
Lemma formatPhoneNumber_rules_in_order_witness :
  formatPhoneNumber (VStr "+1 (415) 555-2671") = Ok (VStr "+14155552671") /\
  formatPhoneNumber (VStr "0044 20 7946 0958") = Ok (VStr "+442079460958") /\
  formatPhoneNumber (VStr "(415) 555-2671") = Ok (VStr "+14155552671") /\
  formatPhoneNumber (VStr "442079460958") = Ok (VStr "+442079460958") /\
  formatPhoneNumber (VStr ("+" ++ "14155552671")) = Ok (VStr ("+" ++ "14155552671")).
Proof.
  pose proof formatPhoneNumber_rules_in_order as [_ [Hrules [Hidem _]]].
  split; [|split; [|split; [|split]]].
  - apply (proj1 (Hrules "+1 (415) 555-2671" ltac:(discriminate))). reflexivity.
  - apply (proj1 (proj2 (Hrules "0044 20 7946 0958" ltac:(discriminate))));
      reflexivity.
  - apply (proj1 (proj2 (proj2 (Hrules "(415) 555-2671" ltac:(discriminate)))));
      reflexivity.
  - apply (proj2 (proj2 (proj2 (Hrules "442079460958" ltac:(discriminate)))));
      [reflexivity | reflexivity | simpl; discriminate].
  - apply Hidem. reflexivity.
Defined.

(** C3.  The rule for numbers without country code is meant for ten
    digits, but the source tests the length of the cleaned string, in
    which the cleaning leaves every plus sign (the defect of C7).  On
    "555+123456" the cleaned string is the input itself: ten characters,
    not ten digits, with no leading '+' and no leading "00".  The claim
    has it among the "other" strings, which get '+' in front; the code
    puts "+1" in front.  So the claim's last two rules do not hold for
    every input. *)
Theorem formatPhoneNumber_ten_characters_not_digits :
  replace_non_digit_plus "555+123456" = "555+123456" /\
  startsWith "+" "555+123456" = false /\
  startsWith "00" "555+123456" = false /\
  ten_digits "555+123456" = false /\
  formatPhoneNumber (VStr "555+123456") = Ok (VStr "+1555+123456") /\
  formatPhoneNumber (VStr "555+123456") <> Ok (VStr ("+" ++ "555+123456")) /\
  ~ (forall s : string,
       s <> "" ->
       let cleaned := replace_non_digit_plus s in
       startsWith "+" cleaned = false -> startsWith "00" cleaned = false ->
       formatPhoneNumber (VStr s) =
       Ok (VStr (if ten_digits cleaned then "+1" ++ cleaned else "+" ++ cleaned))).
Proof.
  repeat split; try reflexivity.
  - discriminate.
  - intros H.
    specialize (H "555+123456" ltac:(discriminate) eq_refl eq_refl).
    discriminate H.
Qed.

(** C7.  The source announces "Remove all non-digit characters except
    leading +", but its character class keeps every plus sign: on
    "555+1234" the result is "+555+1234", with a plus sign after the
    leading one.  So it is not true that every result is made of digits
    after at most one leading plus. *)
Theorem formatPhoneNumber_keeps_inner_plus :
  formatPhoneNumber (VStr "555+1234") = Ok (VStr "+555+1234") /\
  digits_after_leading_plus "+555+1234" = false /\
  formatPhoneNumber (VStr "+1 415+555 2671") = Ok (VStr "+1415+5552671") /\
  digits_after_leading_plus "+1415+5552671" = false /\
  ~ (forall s r : string,
       s <> "" -> formatPhoneNumber (VStr s) = Ok (VStr r) ->
       digits_after_leading_plus r = true).
Proof.
  repeat split; try reflexivity.
  intros H.
  specialize (H "555+1234" "+555+1234" ltac:(discriminate) eq_refl).
  discriminate H.
Qed.

Lemma is_letter_not_kept (c : ascii) :
  is_letter c = true -> negb (is_digit c || is_plus c) = true.
Proof.
  unfold is_letter, is_digit, is_plus. intros H.
  destruct (c =? "+")%char eqn:Hp.
  - apply Ascii.eqb_eq in Hp. subst c. discriminate.
  - rewrite orb_false_r. apply negb_true_iff. apply andb_false_iff.
    apply orb_true_iff in H as [H|H]; apply andb_true_iff in H as [H1 H2];
      apply Nat.leb_le in H1, H2; right; apply Nat.leb_gt; lia.
Qed.

(** C10.  [formatPhoneNumber] returns null exactly on a falsy input,
    which for an input that is null, undefined or a string means null,
    undefined or the empty string.  On every non-empty string it returns
    a non-empty string (one that starts with '+'), also when the input
    holds no digit: an input made of letters only gives "+", and
    [formatPhoneForWhatsApp] then gives "whatsapp:+", not null. *)
Theorem formatPhoneNumber_null_iff_empty :
  (forall v : value, formatPhoneNumber v = Ok VNull <-> truthy v = false) /\
  (forall s : string, formatPhoneNumber (VStr s) = Ok VNull <-> s = "") /\
  formatPhoneNumber VNull = Ok VNull /\
  formatPhoneNumber VUndefined = Ok VNull /\
  (forall s : string, s <> "" ->
     exists r : string,
       formatPhoneNumber (VStr s) = Ok (VStr r) /\ startsWith "+" r = true /\
       r <> "") /\
  (forall s : string, s <> "" -> Js.forallb is_letter s = true ->
     formatPhoneNumber (VStr s) = Ok (VStr "+") /\
     formatPhoneForWhatsApp (VStr s) = Ok (VStr "whatsapp:+")).
Proof.
  assert (Hnonempty : forall s : string, s <> "" ->
     exists r : string,
       formatPhoneNumber (VStr s) = Ok (VStr r) /\ startsWith "+" r = true /\
       r <> "").
  { intros s Hs. rewrite (formatPhoneNumber_string s Hs).
    eexists. split; [reflexivity|].
    assert (Hp : startsWith "+"
      (let cleaned := replace_non_digit_plus s in
       if startsWith "+" cleaned then cleaned
       else if startsWith "00" cleaned then "+" ++ drop 2 cleaned
       else if (String.length cleaned =? 10)%nat then "+1" ++ cleaned
       else "+" ++ cleaned) = true).
    { apply (formatPhoneNumber_starts_with_plus s).
      apply formatPhoneNumber_string. exact Hs. }
    split; [exact Hp|].
    intros Heq. rewrite Heq in Hp. discriminate. }
  assert (Hstr : forall s : string, formatPhoneNumber (VStr s) = Ok VNull <-> s = "").
  { intros s. split.
    - intros H. destruct s as [|c s]; [reflexivity|].
      destruct (Hnonempty (String c s)) as [r [Hr _]]; [discriminate|].
      rewrite Hr in H. discriminate.
    - intros ->. reflexivity. }
  split; [|split; [exact Hstr|split; [reflexivity|split; [reflexivity|split;
    [exact Hnonempty|]]]]].
  - intros v. destruct v as [| |b|n|s|items|props]; simpl;
      try (split; [reflexivity | reflexivity]);
      try (split; [discriminate | discriminate]).
    + destruct b; simpl; split; (reflexivity || discriminate).
    + unfold formatPhoneNumber. destruct n as [z|positive text]; simpl;
        [destruct (z =? 0); simpl|]; split; (reflexivity || discriminate).
    + rewrite Hstr. destruct s; simpl; split; (reflexivity || discriminate).
  - intros s Hs Hletters.
    assert (Hclean : replace_non_digit_plus s = "").
    { apply filter_none. revert Hletters. apply forallb_impl.
      exact is_letter_not_kept. }
    assert (Hfmt : formatPhoneNumber (VStr s) = Ok (VStr "+")).
    { rewrite (formatPhoneNumber_string s Hs). cbv zeta. rewrite Hclean.
      reflexivity. }
    split; [exact Hfmt|].
    unfold formatPhoneForWhatsApp. rewrite Hfmt. reflexivity.
Qed.

(** C10 on the letters-only input "call". *)
Lemma formatPhoneNumber_null_iff_empty_witness :
  (exists r : string,
     formatPhoneNumber (VStr "call") = Ok (VStr r) /\ startsWith "+" r = true /\
     r <> "") /\
  formatPhoneNumber (VStr "call") = Ok (VStr "+") /\
  formatPhoneForWhatsApp (VStr "call") = Ok (VStr "whatsapp:+").
Proof.
  pose proof formatPhoneNumber_null_iff_empty as [_ [_ [_ [_ [Hne Hletters]]]]].
  split.
  - apply Hne. discriminate.
  - apply Hletters; [discriminate | reflexivity].
Defined.

(** ** Event validator *)

Lemma includes_app_r (p t : string) : includes t (p ++ t) = true.
Proof.
  assert (Hself : forall u : string, startsWith u u = true).
  { induction u as [|c u IH]; simpl; [reflexivity|].
    rewrite Ascii.eqb_refl. exact IH. }
  induction p as [|c p IH]; simpl.
  - destruct t as [|c t]; [reflexivity|].
    change (startsWith (String c t) (String c t) || includes (String c t) t = true).
    rewrite Hself. reflexivity.
  - rewrite IH. apply orb_true_r.
Qed.

Lemma allowed_existsb (t : string) (l : list string) :
  existsb (strict_eq_str (VStr t)) l = true <-> In t l.
Proof.
  rewrite existsb_exists. split.
  - intros [a [Hin Heq]]. simpl in Heq. apply String.eqb_eq in Heq. now subst.
  - intros Hin. exists t. split; [exact Hin|]. simpl. apply String.eqb_refl.
Qed.

Lemma allowed_includes_namespace (t : string) :
  In t ALLOWED_EVENT_TYPES -> includes "com.adobe.commerce" t = true.
Proof.
  unfold ALLOWED_EVENT_TYPES.
  intros [<-|[<-|[<-|[<-|[]]]]]; reflexivity.
Qed.

(** [validateEvent] on an envelope whose [type] and [source] are
    non-empty strings. *)
Lemma validateEvent_strings (params : obj) (t s : string) :
  lookup "type" params = VStr t -> lookup "source" params = VStr s ->
  t <> "" -> s <> "" ->
  validateEvent params =
  Ok (if negb (includes "com.adobe.commerce" t)
      then errorResponse 400 "Invalid event source - not a Commerce event"
      else if negb (existsb (strict_eq_str (VStr t)) ALLOWED_EVENT_TYPES)
      then errorResponse 400 ("Unauthorized event type: " ++ t)
      else VNull).
Proof.
  intros Ht Hs Htne Hsne.
  apply truthy_VStr in Htne, Hsne.
  unfold validateEvent, validateCloudEventStructure, validateCommerceEvent,
    validateEventType.
  rewrite Ht, Hs, Htne, Hsne. cbn [negb orb truthy js_includes Js.bind].
  destruct (includes "com.adobe.commerce" t); cbn [negb truthy Js.bind].
  - destruct (includes "com.adobe.commerce" s); cbn [negb Js.bind truthy];
      destruct (existsb _ ALLOWED_EVENT_TYPES); reflexivity.
  - reflexivity.
Qed.

(** What [validateEvent] returns when it returns: null for a type of the
    allow-list and a truthy source, or a 400 error response. *)
Lemma validateEvent_returns (params : obj) (v : value) :
  validateEvent params = Ok v ->
  (v = VNull /\ truthy (lookup "source" params) = true /\
   exists t : string, lookup "type" params = VStr t /\ In t ALLOWED_EVENT_TYPES) \/
  exists msg : string, v = errorResponse 400 msg.
Proof.
  unfold validateEvent, validateCloudEventStructure.
  destruct (truthy (lookup "type" params)) eqn:Htype;
    [|intros [= <-]; right; eexists; reflexivity].
  destruct (truthy (lookup "source" params)) eqn:Hsrc;
    [|intros [= <-]; right; eexists; reflexivity].
  cbn [negb orb truthy]. unfold validateCommerceEvent. rewrite Htype, Hsrc.
  destruct (lookup "type" params) as [| |b|n|t|items|props] eqn:Ht;
    try discriminate.
  - cbn [js_includes Js.bind].
    destruct (includes "com.adobe.commerce" t) eqn:Hns; cbn [truthy negb Js.bind].
    2:{ cbn [toString Js.bind truthy errorResponse].
        intros [= <-]. right. eexists. reflexivity. }
    destruct (js_includes (lookup "source" params) "com.adobe.commerce") as [inc|e];
      cbn [Js.bind]; [|discriminate].
    destruct (if negb inc then toString (lookup "source" params) else Ok "")
      as [line|e]; cbn [Js.bind truthy]; [|discriminate].
    unfold validateEventType.
    destruct (existsb (strict_eq_str (VStr t)) ALLOWED_EVENT_TYPES) eqn:Hex;
      cbn [negb toString Js.bind truthy errorResponse].
    + intros [= <-]. left. split; [reflexivity|]. split; [reflexivity|].
      exists t. split; [reflexivity|]. apply allowed_existsb. exact Hex.
    + intros [= <-]. right. eexists. reflexivity.
  - cbn [js_includes Js.bind].
    destruct (existsb _ items); cbn [truthy negb Js.bind].
    2:{ destruct (toString (VArr items)) as [line|e]; cbn [Js.bind];
          [|discriminate].
        cbn [truthy errorResponse]. intros [= <-]. right. eexists. reflexivity. }
    destruct (js_includes (lookup "source" params) "com.adobe.commerce") as [inc|e];
      cbn [Js.bind]; [|discriminate].
    destruct (if negb inc then toString (lookup "source" params) else Ok "")
      as [line|e]; cbn [Js.bind truthy]; [|discriminate].
    unfold validateEventType.
    change (existsb (strict_eq_str (VArr items)) ALLOWED_EVENT_TYPES) with false.
    cbn [negb]. destruct (toString (VArr items)) as [printed|e]; cbn [Js.bind];
      [|discriminate].
    cbn [truthy errorResponse]. intros [= <-]. right. eexists. reflexivity.
Qed.

(** C5 (amended).  [validateEvent] runs its three checks in order and
    stops at the first failure: a missing [type] or [source] gives 400
    "Invalid event structure"; otherwise a [type] without the vendor
    namespace gives 400 "Invalid event source - not a Commerce event";
    otherwise a [type] outside the allow-list gives 400 with the message
    "Unauthorized event type: <type>", which includes the offending type;
    and the result is null when all three checks pass. *)
Theorem validateEvent_checks_in_order :
  forall params : obj,
  (truthy (lookup "type" params) = false \/ truthy (lookup "source" params) = false ->
   validateEvent params = Ok (errorResponse 400 "Invalid event structure")) /\
  (forall t : string,
     lookup "type" params = VStr t -> t <> "" ->
     truthy (lookup "source" params) = true ->
     includes "com.adobe.commerce" t = false ->
     validateEvent params =
     Ok (errorResponse 400 "Invalid event source - not a Commerce event")) /\
  (forall t s : string,
     lookup "type" params = VStr t -> lookup "source" params = VStr s -> s <> "" ->
     includes "com.adobe.commerce" t = true -> ~ In t ALLOWED_EVENT_TYPES ->
     validateEvent params =
     Ok (errorResponse 400 ("Unauthorized event type: " ++ t)) /\
     includes t ("Unauthorized event type: " ++ t) = true) /\
  (forall t s : string,
     lookup "type" params = VStr t -> lookup "source" params = VStr s -> s <> "" ->
     In t ALLOWED_EVENT_TYPES ->
     validateEvent params = Ok VNull).
Proof.
  intros params. split; [|split; [|split]].
  - intros H. unfold validateEvent, validateCloudEventStructure.
    assert (Hor : negb (truthy (lookup "type" params))
                  || negb (truthy (lookup "source" params)) = true).
    { destruct H as [-> | ->]; [reflexivity | apply orb_true_r]. }
    rewrite Hor. reflexivity.
  - intros t Ht Htne Hsrc Hns.
    apply truthy_VStr in Htne.
    unfold validateEvent, validateCloudEventStructure, validateCommerceEvent.
    rewrite Ht, Htne, Hsrc. cbn [negb orb truthy js_includes Js.bind].
    rewrite Hns. reflexivity.
  - intros t s Ht Hs Hsne Hns Hnot.
    assert (Htne : t <> "") by (intros ->; discriminate).
    rewrite (validateEvent_strings params t s Ht Hs Htne Hsne), Hns.
    destruct (existsb _ ALLOWED_EVENT_TYPES) eqn:Hex.
    + apply allowed_existsb in Hex. contradiction.
    + split; [reflexivity | apply includes_app_r].
  - intros t s Ht Hs Hsne Hin.
    assert (Htne : t <> "").
    { intros ->. apply allowed_includes_namespace in Hin. discriminate. }
    rewrite (validateEvent_strings params t s Ht Hs Htne Hsne).
    rewrite (allowed_includes_namespace t Hin).
    apply allowed_existsb in Hin. rewrite Hin. reflexivity.
Qed.

(** The four outcomes of C5 on envelopes that each reach one of them. *)
Lemma validateEvent_checks_in_order_witness :
  validateEvent (envelope (VStr "com.example.event") VUndefined) =
    Ok (errorResponse 400 "Invalid event structure") /\
  validateEvent (envelope (VStr "com.example.event") (VStr "com.example")) =
    Ok (errorResponse 400 "Invalid event source - not a Commerce event") /\
  validateEvent (envelope (VStr "com.adobe.commerce.observer.unknown_event")
                          (VStr "com.adobe.commerce")) =
    Ok (errorResponse 400
          "Unauthorized event type: com.adobe.commerce.observer.unknown_event") /\
  validateEvent (envelope (VStr "com.adobe.commerce.observer.sales_order_place_after")
                          (VStr "com.adobe.commerce")) = Ok VNull.
Proof.
  split; [|split; [|split]].
  - apply (proj1 (validateEvent_checks_in_order _)). right. reflexivity.
  - apply (proj1 (proj2 (validateEvent_checks_in_order _)) "com.example.event");
      [reflexivity | discriminate | reflexivity | reflexivity].
  - apply (proj1 (proj2 (proj2 (validateEvent_checks_in_order _)))
             "com.adobe.commerce.observer.unknown_event" "com.adobe.commerce");
      [reflexivity | reflexivity | discriminate | reflexivity |].
    unfold ALLOWED_EVENT_TYPES. simpl.
    intros [H|[H|[H|[H|[]]]]]; discriminate H.
  - apply (proj2 (proj2 (proj2 (validateEvent_checks_in_order _)))
             "com.adobe.commerce.observer.sales_order_place_after"
             "com.adobe.commerce");
      [reflexivity | reflexivity | discriminate | left; reflexivity].
Defined.

(** Against C5 as stated: the message of the third check names the
    offending type but not the allow-list, which the source writes to the
    log only. *)
Lemma validateEvent_message_omits_allow_list :
  exists msg : string,
    validateEvent (envelope (VStr "com.adobe.commerce.observer.unknown_event")
                            (VStr "com.adobe.commerce")) =
      Ok (errorResponse 400 msg) /\
    includes "com.adobe.commerce.observer.unknown_event" msg = true /\
    ~ message_includes_allow_list msg /\
    List.forallb (fun a => negb (includes a msg)) ALLOWED_EVENT_TYPES = true.
Proof.
  exists "Unauthorized event type: com.adobe.commerce.observer.unknown_event".
  split; [reflexivity|]. split; [reflexivity|]. split; [|reflexivity].
  intros H.
  specialize (H "com.adobe.commerce.observer.sales_order_place_after"
                (or_introl eq_refl)).
  discriminate H.
Qed.

(** C8 (amended).  An envelope that [validateEvent] accepts has a [type]
    that is one of the four allowed strings, hence contains the vendor
    namespace, and a [source] that is present (truthy); of the contents of
    [source] nothing is required. *)
Theorem validateEvent_accepts :
  forall params : obj,
  validateEvent params = Ok VNull ->
  truthy (lookup "source" params) = true /\
  exists t : string,
    lookup "type" params = VStr t /\ In t ALLOWED_EVENT_TYPES /\
    includes "com.adobe.commerce" t = true.
Proof.
  intros params H.
  destruct (validateEvent_returns params VNull H) as [[_ [Hsrc [t [Ht Hin]]]] | [msg Hm]];
    [|discriminate Hm].
  split; [exact Hsrc|]. exists t. split; [exact Ht|]. split; [exact Hin|].
  exact (allowed_includes_namespace t Hin).
Qed.

(** C8 on the order-placed envelope of the tests. *)
Lemma validateEvent_accepts_witness :
  truthy (lookup "source"
            (envelope (VStr "com.adobe.commerce.observer.sales_order_place_after")
                      (VStr "com.adobe.commerce"))) = true /\
  exists t : string,
    lookup "type"
      (envelope (VStr "com.adobe.commerce.observer.sales_order_place_after")
                (VStr "com.adobe.commerce")) = VStr t /\
    In t ALLOWED_EVENT_TYPES /\ includes "com.adobe.commerce" t = true.
Proof.
  apply validateEvent_accepts. reflexivity.
Defined.

(** Against C8 as stated: an accepted envelope whose [source] does not
    contain the vendor namespace; the source only warns about it. *)
Lemma validateEvent_accepts_foreign_source :
  validateEvent
    (envelope (VStr "com.adobe.commerce.observer.sales_order_place_after")
              (VStr "urn:uuid:fefcd900-66b6-4a46-9494-1b9ff1c5d0ac")) = Ok VNull /\
  js_includes (VStr "urn:uuid:fefcd900-66b6-4a46-9494-1b9ff1c5d0ac")
              "com.adobe.commerce" = Ok false.
Proof. split; reflexivity. Qed.

(** ** Order data extractor *)

Lemma opt_get_falsy (v : value) (k : string) :
  truthy v = false -> opt_get v k = VUndefined.
Proof. destruct v; simpl; intros H; (reflexivity || discriminate). Qed.

Lemma truthy_js_or (a b : value) : truthy (js_or a b) = truthy a || truthy b.
Proof.
  unfold js_or. destruct (truthy a) eqn:Ha; [exact Ha | reflexivity].
Qed.

(** Inside [extractEventData] the resolved order is truthy exactly when
    [data.value] is. *)
Lemma extractOrderData_truthy (data : value) (isShipmentEvent : bool) :
  let shipmentData :=
    if isShipmentEvent then extractShipmentData data else VNull in
  truthy (extractOrderData data shipmentData isShipmentEvent) =
  truthy (opt_get data "value").
Proof.
  cbv zeta. unfold extractOrderData, extractShipmentData.
  destruct (truthy (opt_get data "value")) eqn:Hv.
  - destruct (_ && _); rewrite !truthy_js_or, Hv, orb_true_r; reflexivity.
  - rewrite (opt_get_falsy _ "shipment" Hv), (opt_get_falsy _ "order" Hv).
    destruct isShipmentEvent; simpl; rewrite !truthy_js_or, Hv; reflexivity.
Qed.

(** C4 (amended).  When [data.value] is absent or falsy (undefined, null,
    false, 0 or the empty string; [data.value.order] is then absent too),
    [extractEventData] returns the 400 error "Missing order data", except
    for a shipment event, which then also lacks [data.value.shipment] and
    gets the 400 error "Missing shipment data".  When [data.value] is
    truthy, which it is as soon as one of the fallback tiers
    [shipment.order], [data.value.order], [data.value] resolves to a truthy
    value (any object, the empty object included), no error is returned:
    the result carries the resolved, truthy [orderData]. *)
Theorem extractEventData_missing_data :
  forall (params : obj) (t : string),
  let dataValue := opt_get (lookup "data" params) "value" in
  let isShipmentEvent := includes "sales_order_shipment_save_after" t in
  (truthy dataValue = false -> isShipmentEvent = false ->
   absent_or_empty (opt_get dataValue "order") = true /\
   extractEventData params (VStr t) =
   Ok (VObj [("error", errorResponse 400 "Missing order data")])) /\
  (truthy dataValue = false -> isShipmentEvent = true ->
   absent_or_empty (opt_get dataValue "shipment") = true /\
   extractEventData params (VStr t) =
   Ok (VObj [("error", errorResponse 400 "Missing shipment data")])) /\
  (truthy dataValue = true \/ truthy (opt_get dataValue "order") = true \/
   truthy (opt_get (opt_get dataValue "shipment") "order") = true ->
   exists orderData shipmentData : value,
     extractEventData params (VStr t) =
     Ok (VObj [("orderData", orderData); ("shipmentData", shipmentData)]) /\
     truthy orderData = true /\
     shipmentData =
       (if isShipmentEvent then extractShipmentData (lookup "data" params)
        else VNull) /\
     orderData =
       extractOrderData (lookup "data" params) shipmentData isShipmentEvent).
Proof.
  intros params t dataValue isShipmentEvent.
  pose proof (extractOrderData_truthy (lookup "data" params) isShipmentEvent) as Ht.
  cbv zeta in Ht. fold dataValue in Ht.
  unfold extractEventData. cbn [js_includes Js.bind]. fold isShipmentEvent.
  split; [|split].
  - intros Hv Hs. rewrite (opt_get_falsy _ "order" Hv).
    split; [reflexivity|].
    rewrite Ht, Hv, Hs. reflexivity.
  - intros Hv Hs. rewrite (opt_get_falsy _ "shipment" Hv).
    split; [reflexivity|].
    rewrite Ht, Hv, Hs. cbn [negb andb].
    unfold extractShipmentData. fold dataValue.
    rewrite (opt_get_falsy _ "shipment" Hv). reflexivity.
  - intros H.
    assert (Hv : truthy dataValue = true).
    { destruct (truthy dataValue) eqn:Hv; [reflexivity|].
      rewrite (opt_get_falsy _ "order" Hv), (opt_get_falsy _ "shipment" Hv) in H.
      destruct H as [H|[H|H]]; discriminate H. }
    rewrite Ht, Hv. cbn [negb].
    eexists. eexists. split; [reflexivity|].
    split; [rewrite Ht; exact Hv|]. split; reflexivity.
Qed.

(** C4 on the envelope without order data of the tests, on a shipment
    envelope without data, and on the order-placed envelope. *)
Lemma extractEventData_missing_data_witness :
  extractEventData (event_with_data (VObj []))
    (VStr "com.adobe.commerce.observer.sales_order_place_after") =
    Ok (VObj [("error", errorResponse 400 "Missing order data")]) /\
  extractEventData (event_with_data (VObj [("value", VNull)]))
    (VStr "com.adobe.commerce.observer.sales_order_shipment_save_after") =
    Ok (VObj [("error", errorResponse 400 "Missing shipment data")]) /\
  exists orderData shipmentData : value,
    extractEventData
      (event_with_data
         (VObj [("value",
                 VObj [("order", VObj [("increment_id", VStr "000000008")])])]))
      (VStr "com.adobe.commerce.observer.sales_order_place_after") =
    Ok (VObj [("orderData", orderData); ("shipmentData", shipmentData)]) /\
    truthy orderData = true.
Proof.
  split; [|split].
  - apply (proj1 (extractEventData_missing_data _ _)); reflexivity.
  - apply (proj1 (proj2 (extractEventData_missing_data _ _))); reflexivity.
  - destruct (proj2 (proj2 (extractEventData_missing_data
        (event_with_data
           (VObj [("value",
                   VObj [("order", VObj [("increment_id", VStr "000000008")])])]))
        "com.adobe.commerce.observer.sales_order_place_after"))
        (or_introl eq_refl)) as [o [sd [H1 [H2 _]]]].
    exists o, sd. split; [exact H1 | exact H2].
Defined.

(** Against C4 as stated: an envelope whose [data.value] is the empty
    object and whose [data.value.order] is absent.  No error is returned,
    the empty object is taken as the order. *)
Lemma extractEventData_empty_object_is_an_order :
  absent_or_empty (opt_get (lookup "data" (event_with_data (VObj [("value", VObj [])])))
                           "value") = true /\
  absent_or_empty
    (opt_get (opt_get (lookup "data" (event_with_data (VObj [("value", VObj [])])))
                      "value") "order") = true /\
  extractEventData (event_with_data (VObj [("value", VObj [])]))
    (VStr "com.adobe.commerce.observer.sales_order_place_after") =
    Ok (VObj [("orderData", VObj []); ("shipmentData", VNull)]) /\
  extractEventData (event_with_data (VObj [("value", VObj [])]))
    (VStr "com.adobe.commerce.observer.sales_order_place_after") <>
    Ok (VObj [("error", errorResponse 400 "Missing order data")]).
Proof. repeat split; try reflexivity. discriminate. Qed.

(** ** Message generator *)

Lemma get_defined (v : value) (k : string) :
  nullish v = false -> get v k = Ok (opt_get v k).
Proof. destruct v; simpl; intros H; (reflexivity || discriminate). Qed.

Lemma strict_eq_str_true (v : value) (c : string) :
  strict_eq_str v c = true <-> v = VStr c.
Proof.
  destruct v; simpl; try (split; discriminate).
  rewrite String.eqb_eq. split; [intros ->; reflexivity | intros [= ->]; reflexivity].
Qed.

Lemma strict_eq_str_false (v : value) (c : string) :
  v <> VStr c -> strict_eq_str v c = false.
Proof.
  intros H. destruct (strict_eq_str v c) eqn:E; [|reflexivity].
  apply strict_eq_str_true in E. contradiction.
Qed.

Lemma first_track_default (shipmentData : value) :
  first_track match shipmentData with VUndefined => VNull | _ => shipmentData end =
  first_track shipmentData.
Proof. destruct shipmentData; reflexivity. Qed.

(** The dispatch of [generateMessageByEventType] once the four reads of
    [orderData] have succeeded. *)
Lemma generateMessageByEventType_defined
  (eventType orderData customerName orderNumber shipmentData : value) :
  nullish orderData = false ->
  generateMessageByEventType eventType orderData customerName orderNumber shipmentData =
  (let orderTotal := opt_get orderData "grand_total" in
   let orderCurrency := opt_get orderData "order_currency_code" in
   let orderStatus :=
     js_or (opt_get orderData "status") (opt_get orderData "state") in
   if strict_eq_str eventType CANCEL_AFTER then
     generateCancellationMessage customerName orderNumber
   else if strict_eq_str eventType PLACE_AFTER then
     generateOrderPlacedMessage customerName orderNumber orderTotal orderCurrency
   else if strict_eq_str eventType SHIPMENT_SAVE_AFTER then
     generateShipmentMessage customerName orderNumber
       (js_or (opt_get (first_track shipmentData) "track_number")
              (opt_get (first_track shipmentData) "number"))
   else if strict_eq_str eventType SAVE_AFTER && truthy orderStatus then
     generateOrderStatusChangeMessage customerName orderNumber orderStatus
   else
     generateOrderPlacedMessage customerName orderNumber orderTotal orderCurrency).
Proof.
  intros Hdef. unfold generateMessageByEventType.
  rewrite !(get_defined orderData) by exact Hdef.
  cbn [Js.bind]. cbv zeta. rewrite first_track_default.
  fold CANCEL_AFTER PLACE_AFTER SHIPMENT_SAVE_AFTER SAVE_AFTER.
  reflexivity.
Qed.

(** C2.  [generateMessageByEventType] compares the event type with the
    four full constants by equality and returns what the chosen template
    function returns (the text, or the exception of a value that cannot
    be printed).  The cancel type gives the cancellation template, the
    place type the order-placed template, the shipment type the shipped
    template, which ends with the tracking clause exactly when the first
    track has a truthy (non-empty) [track_number] or [number], the save
    type with a truthy (non-empty) status or state the status-update
    template, and everything else, the save type without status included,
    the order-placed template. *)
Theorem generateMessageByEventType_dispatch :
  forall eventType orderData customerName orderNumber shipmentData : value,
  nullish orderData = false ->
  let total := opt_get orderData "grand_total" in
  let currency := opt_get orderData "order_currency_code" in
  let status := js_or (opt_get orderData "status") (opt_get orderData "state") in
  let track_number := opt_get (first_track shipmentData) "track_number" in
  let number := opt_get (first_track shipmentData) "number" in
  let generated :=
    generateMessageByEventType eventType orderData customerName orderNumber
      shipmentData in
  (eventType = VStr CANCEL_AFTER ->
   generated = generateCancellationMessage customerName orderNumber) /\
  (eventType = VStr PLACE_AFTER ->
   generated = generateOrderPlacedMessage customerName orderNumber total currency) /\
  (eventType = VStr SHIPMENT_SAVE_AFTER ->
   truthy track_number = true \/ truthy number = true ->
   generated =
   (name <- toString customerName ;;
    order <- toString orderNumber ;;
    tracking <- toString (js_or track_number number) ;;
    Ok ("Hi " ++ name ++ ", your order #" ++ order ++
        " has been shipped! Track your package using tracking number " ++
        tracking ++ "."))) /\
  (eventType = VStr SHIPMENT_SAVE_AFTER ->
   truthy track_number = false -> truthy number = false ->
   generated =
   (name <- toString customerName ;;
    order <- toString orderNumber ;;
    Ok ("Hi " ++ name ++ ", your order #" ++ order ++ " has been shipped!"))) /\
  (eventType = VStr SAVE_AFTER -> truthy status = true ->
   generated = generateOrderStatusChangeMessage customerName orderNumber status) /\
  (eventType = VStr SAVE_AFTER -> truthy status = false ->
   generated = generateOrderPlacedMessage customerName orderNumber total currency) /\
  (eventType <> VStr CANCEL_AFTER -> eventType <> VStr PLACE_AFTER ->
   eventType <> VStr SHIPMENT_SAVE_AFTER -> eventType <> VStr SAVE_AFTER ->
   generated = generateOrderPlacedMessage customerName orderNumber total currency) /\
  (forall name order amount code text : string,
     toString customerName = Ok name -> toString orderNumber = Ok order ->
     (generateCancellationMessage customerName orderNumber =
      Ok ("Hi " ++ name ++ ", your order #" ++ order ++
          " has been cancelled. If you have any questions, please contact us.")) /\
     (toString total = Ok amount -> toString currency = Ok code ->
      generateOrderPlacedMessage customerName orderNumber total currency =
      Ok ("Hi " ++ name ++ ", your order #" ++ order ++ " for " ++ amount ++ " " ++
          code ++ " has been confirmed. Thank you for your purchase!")) /\
     (toString status = Ok text ->
      generateOrderStatusChangeMessage customerName orderNumber status =
      Ok ("Hi " ++ name ++ ", your order #" ++ order ++
          " status has been updated to " ++ text ++ "."))).
Proof.
  intros eventType orderData customerName orderNumber shipmentData Hdef.
  intros total currency status track_number number generated.
  subst generated.
  rewrite (generateMessageByEventType_defined _ _ _ _ _ Hdef). cbv zeta.
  fold total currency status track_number number.
  split; [|split; [|split; [|split; [|split; [|split; [|split]]]]]].
  - intros ->. reflexivity.
  - intros ->. reflexivity.
  - intros -> Htrack.
    change (generateShipmentMessage customerName orderNumber
              (js_or track_number number) =
            (name <- toString customerName ;;
             order <- toString orderNumber ;;
             tracking <- toString (js_or track_number number) ;;
             Ok ("Hi " ++ name ++ ", your order #" ++ order ++
                 " has been shipped! Track your package using tracking number " ++
                 tracking ++ "."))).
    unfold generateShipmentMessage.
    rewrite truthy_js_or.
    destruct Htrack as [-> | ->]; [reflexivity | rewrite orb_true_r; reflexivity].
  - intros -> H1 H2.
    change (generateShipmentMessage customerName orderNumber
              (js_or track_number number) =
            (name <- toString customerName ;;
             order <- toString orderNumber ;;
             Ok ("Hi " ++ name ++ ", your order #" ++ order ++
                 " has been shipped!"))).
    unfold generateShipmentMessage.
    rewrite truthy_js_or, H1, H2. reflexivity.
  - intros -> Hst.
    change ((if true && truthy status
             then generateOrderStatusChangeMessage customerName orderNumber status
             else generateOrderPlacedMessage customerName orderNumber total currency)
            = generateOrderStatusChangeMessage customerName orderNumber status).
    rewrite Hst. reflexivity.
  - intros -> Hst.
    change ((if true && truthy status
             then generateOrderStatusChangeMessage customerName orderNumber status
             else generateOrderPlacedMessage customerName orderNumber total currency)
            = generateOrderPlacedMessage customerName orderNumber total currency).
    rewrite Hst. reflexivity.
  - intros H1 H2 H3 H4.
    rewrite (strict_eq_str_false _ _ H1), (strict_eq_str_false _ _ H2),
      (strict_eq_str_false _ _ H3), (strict_eq_str_false _ _ H4).
    reflexivity.
  - intros name order amount code text Hname Horder.
    unfold generateCancellationMessage, generateOrderPlacedMessage,
      generateOrderStatusChangeMessage.
    rewrite Hname, Horder. cbn [Js.bind].
    split; [reflexivity|]. split.
    + intros -> ->. reflexivity.
    + intros ->. reflexivity.
Qed.

(** C2 on the events of the test suite, on a shipment without tracks, on
    a save event without status and on a type that merely contains one of
    the constants. *)
Lemma generateMessageByEventType_dispatch_witness :
  generateMessageByEventType (VStr CANCEL_AFTER) order_placed
    (VStr "Bob Johnson") (VStr "000000011") VNull =
  Ok "Hi Bob Johnson, your order #000000011 has been cancelled. If you have any questions, please contact us." /\
  generateMessageByEventType (VStr PLACE_AFTER) order_placed
    (VStr "Test Customer") (VStr "000000008") VNull =
  Ok "Hi Test Customer, your order #000000008 for 100 USD has been confirmed. Thank you for your purchase!" /\
  generateMessageByEventType (VStr SHIPMENT_SAVE_AFTER) order_placed
    (VStr "John Smith") (VStr "000000010") shipment_tracked =
  Ok "Hi John Smith, your order #000000010 has been shipped! Track your package using tracking number TRACK123456." /\
  generateMessageByEventType (VStr SHIPMENT_SAVE_AFTER) order_placed
    (VStr "John Smith") (VStr "000000010") (VObj [("tracks", VArr [])]) =
  Ok "Hi John Smith, your order #000000010 has been shipped!" /\
  generateMessageByEventType (VStr SAVE_AFTER) order_processing
    (VStr "Jane Doe") (VStr "000000009") VNull =
  Ok "Hi Jane Doe, your order #000000009 status has been updated to processing." /\
  generateMessageByEventType (VStr SAVE_AFTER) order_placed
    (VStr "Test Customer") (VStr "000000008") VNull =
  Ok "Hi Test Customer, your order #000000008 for 100 USD has been confirmed. Thank you for your purchase!" /\
  generateMessageByEventType (VStr ("x." ++ CANCEL_AFTER)) order_placed
    (VStr "Test Customer") (VStr "000000008") VNull =
  Ok "Hi Test Customer, your order #000000008 for 100 USD has been confirmed. Thank you for your purchase!".
Proof.
  split; [|split; [|split; [|split; [|split; [|split]]]]].
  - exact (proj1 (generateMessageByEventType_dispatch (VStr CANCEL_AFTER)
             order_placed (VStr "Bob Johnson") (VStr "000000011") VNull eq_refl)
             eq_refl).
  - exact (proj1 (proj2 (generateMessageByEventType_dispatch (VStr PLACE_AFTER)
             order_placed (VStr "Test Customer") (VStr "000000008") VNull eq_refl))
             eq_refl).
  - exact (proj1 (proj2 (proj2 (generateMessageByEventType_dispatch
             (VStr SHIPMENT_SAVE_AFTER) order_placed (VStr "John Smith")
             (VStr "000000010") shipment_tracked eq_refl)))
             eq_refl (or_introl eq_refl)).
  - exact (proj1 (proj2 (proj2 (proj2 (generateMessageByEventType_dispatch
             (VStr SHIPMENT_SAVE_AFTER) order_placed (VStr "John Smith")
             (VStr "000000010") (VObj [("tracks", VArr [])]) eq_refl))))
             eq_refl eq_refl eq_refl).
  - exact (proj1 (proj2 (proj2 (proj2 (proj2 (generateMessageByEventType_dispatch
             (VStr SAVE_AFTER) order_processing (VStr "Jane Doe")
             (VStr "000000009") VNull eq_refl)))))
             eq_refl eq_refl).
  - exact (proj1 (proj2 (proj2 (proj2 (proj2 (proj2
             (generateMessageByEventType_dispatch
                (VStr SAVE_AFTER) order_placed (VStr "Test Customer")
                (VStr "000000008") VNull eq_refl))))))
             eq_refl eq_refl).
  - apply (proj1 (proj2 (proj2 (proj2 (proj2 (proj2 (proj2
             (generateMessageByEventType_dispatch
                (VStr ("x." ++ CANCEL_AFTER)) order_placed (VStr "Test Customer")
                (VStr "000000008") VNull eq_refl))))))));
      discriminate.
Defined.

Example generateMessageByEventType_decimal_total :
  generateMessageByEventType (VStr PLACE_AFTER) order_decimal
    (VStr "Jane Doe") (VStr "000000014") VNull =
  Ok "Hi Jane Doe, your order #000000014 for 99.99 EUR has been confirmed. Thank you for your purchase!".
Proof. reflexivity. Qed.

Example generateMessageByEventType_unprintable_total :
  generateMessageByEventType (VStr PLACE_AFTER)
    (VObj [("grand_total", VObj [("toString", VNum 1)])])
    (VStr "Jane Doe") (VStr "000000014") VNull =
  Throw (Error "Cannot convert object to primitive value").
Proof. reflexivity. Qed.

(** ** Twilio service *)

Lemma try_catch_returns {A : Type} (m : M A) (h : JsError -> M A) :
  (forall e : JsError, exists (t : list event) (a : A), h e = (t, Ok a)) ->
  exists (t : list event) (a : A), try_catch m h = (t, Ok a).
Proof.
  intros Hh. destruct m as [t [a|e]]; simpl.
  - exists t, a. reflexivity.
  - destruct (Hh e) as [t' [a Ha]]. rewrite Ha. exists (t ++ t')%list, a. reflexivity.
Qed.


Lemma reported_message_nonempty (e : JsError) : reported_message e <> "".
Proof.
  unfold reported_message.
  destruct (Js.message e =? "")%string eqn:E; [discriminate|].
  apply String.eqb_neq in E. exact E.
Qed.

Lemma catch_block (e : JsError) :
  VObj [("success", VBool false);
        ("error", js_or (VStr (Js.message e)) (VStr "Unknown Twilio error"))] =
  failure (reported_message e).
Proof.
  unfold failure, reported_message, js_or. simpl.
  destruct (Js.message e =? "")%string; reflexivity.
Qed.



Lemma send_result_failure (e : JsError) : send_result (failure (reported_message e)).
Proof.
  right. exists (reported_message e).
  split; [apply reported_message_nonempty | reflexivity].
Qed.

Lemma sendWhatsAppMessage_result
  (twilio : value -> value -> result Client) (config : TwilioConfig)
  (toPhoneNumber message : value) :
  exists (calls : list event) (v : value),
    sendWhatsAppMessage twilio config toPhoneNumber message = (calls, Ok v) /\
    send_result v.
Proof.
  unfold sendWhatsAppMessage. fold (config_missing config).
  destruct (config_missing config).
  { eexists. eexists. split; [reflexivity|].
    right. eexists. split; [|reflexivity]. discriminate. }
  match goal with
  | |- context [try_catch ?body ?handler] =>
      assert (Hbody : forall (calls : list event) (v : value),
                body = (calls, Ok v) -> send_result v);
      [|destruct body as [calls [v|e]]]
  end.
  - unfold new_client, messages_create, emit, lift, throw, ret.
    intros calls v.
    destruct (twilio (accountSid config) (authToken config)) as [client|e];
      [|discriminate].
    cbn [bindM app].
    destruct (formatPhoneForWhatsApp toPhoneNumber) as [whatsappTo|e];
      [|discriminate].
    cbv zeta. destruct (truthy whatsappTo); cbn [negb]; [|discriminate].
    cbn [bindM app].
    destruct (client (fromNumber config) whatsappTo message) as [m|e];
      [|discriminate].
    destruct (get m "sid") as [sid|e]; [|discriminate].
    destruct (get m "status") as [status|e]; [|discriminate].
    intros [= _ <-]. left. exists sid, status. reflexivity.
  - exists calls, v. split; [reflexivity|]. exact (Hbody calls v eq_refl).
  - cbn [try_catch ret]. rewrite catch_block.
    eexists. eexists. split; [reflexivity|]. apply send_result_failure.
Qed.

(** ** Orchestrator *)

(** C6.  When the [challenge] field of the input is present (truthy: a
    non-empty string, or any other truthy value), [main] returns
    [{statusCode: 200, body: {challenge}}] with that value, whatever the
    other fields hold, for every behaviour of the SDK, and makes no call
    into the SDK. *)
Theorem main_echoes_challenge :
  forall (string_is_positive : string -> bool)
         (twilio : value -> value -> result Client) (params : obj),
  truthy (lookup "challenge" params) = true ->
  main string_is_positive twilio params =
  ([], Ok (VObj [("statusCode", VNum 200);
                 ("body", VObj [("challenge", lookup "challenge" params)])])).
Proof.
  intros string_is_positive twilio params H.
  unfold main, main_try. rewrite H. reflexivity.
Qed.

(** C6 on a handshake that carries nothing else, and on one that arrives
    together with an event that would not pass validation. *)
Lemma main_echoes_challenge_witness :
  main (fun _ => false) twilio_resolves [("challenge", VStr "abc123")] =
    ([], Ok (VObj [("statusCode", VNum 200);
                   ("body", VObj [("challenge", VStr "abc123")])])) /\
  main (fun _ => false) twilio_rejects
       [("type", VStr "com.example.event"); ("challenge", VStr "abc123");
        ("TWILIO_ACCOUNT_SID", VStr "test_sid")] =
    ([], Ok (VObj [("statusCode", VNum 200);
                   ("body", VObj [("challenge", VStr "abc123")])])).
Proof.
  split.
  - exact (main_echoes_challenge (fun _ => false) twilio_resolves
             [("challenge", VStr "abc123")] eq_refl).
  - exact (main_echoes_challenge (fun _ => false) twilio_rejects
             [("type", VStr "com.example.event"); ("challenge", VStr "abc123");
              ("TWILIO_ACCOUNT_SID", VStr "test_sid")] eq_refl).
Defined.

Lemma bindM_lift {A B : Type} (r : result A) (k : A -> M B) :
  bindM (lift r) k = match r with Ok a => k a | Throw e => ([], Throw e) end.
Proof.
  unfold bindM, lift. destruct r as [a|e]; [|reflexivity].
  destruct (k a) as [t r]. reflexivity.
Qed.

Lemma validateEvent_value (params : obj) (v : value) :
  validateEvent params = Ok v ->
  v = VNull \/ exists msg : string, v = errorResponse 400 msg.
Proof.
  intros H.
  destruct (validateEvent_returns params v H) as [[-> _] | Hm];
    [left; reflexivity | right; exact Hm].
Qed.

Lemma extractEventData_value (params : obj) (eventType v : value) :
  extractEventData params eventType = Ok v ->
  (exists msg : string, v = VObj [("error", errorResponse 400 msg)]) \/
  (exists orderData shipmentData : value,
     truthy orderData = true /\
     v = VObj [("orderData", orderData); ("shipmentData", shipmentData)]).
Proof.
  unfold extractEventData.
  destruct (js_includes eventType _) as [b|e]; [|discriminate].
  cbn [Js.bind]. cbv zeta.
  destruct (truthy (extractOrderData _ _ _)) eqn:Ho; cbn [negb].
  - intros [= <-]. right. eexists. eexists. split; [exact Ho | reflexivity].
  - destruct (b && _); intros [= <-]; left; eexists; reflexivity.
Qed.

(** The outcomes of the [try] block of [main] when there is no
    challenge: an exception or a 400 response, both before any call into
    the SDK, or the final response around a result of
    [sendWhatsAppMessage]. *)
Lemma main_try_outcome
  (string_is_positive : string -> bool) (twilio : value -> value -> result Client)
  (params : obj) (calls : list event) (r : result value) :
  truthy (lookup "challenge" params) = false ->
  main_try string_is_positive twilio params = (calls, r) ->
  match r with
  | Throw _ => calls = []
  | Ok resp =>
      (calls = [] /\ exists msg : string, resp = errorResponse 400 msg) \/
      (exists (orderNumber customerPhone twilioResult : value) (text : string),
         truthy customerPhone = true /\
         sendWhatsAppMessage twilio (twilio_config_of params) customerPhone
           (VStr text) = (calls, Ok twilioResult) /\
         resp = VObj [("statusCode", VNum 200);
                      ("body", VObj (response_body orderNumber customerPhone
                                                   twilioResult))])
  end.
Proof.
  intros Hch. unfold main_try. rewrite Hch.
  rewrite bindM_lift.
  destruct (validateEvent params) as [verr|e] eqn:Hv;
    [|intros [= <- <-]; reflexivity].
  destruct (validateEvent_value _ _ Hv) as [->|[msg ->]];
    [|intros [= <- <-]; left; split; [reflexivity | eexists; reflexivity]].
  cbn [truthy]. rewrite bindM_lift.
  destruct (toString (lookup "type" params)) as [line|e];
    [|intros [= <- <-]; reflexivity].
  rewrite bindM_lift.
  destruct (extractEventData params (lookup "type" params)) as [ex|e] eqn:He;
    [|intros [= <- <-]; reflexivity].
  destruct (extractEventData_value _ _ _ He) as [[msg ->]|[o [sd [Ho ->]]]];
    [intros [= <- <-]; left; split; [reflexivity | eexists; reflexivity]|].
  cbn [opt_get lookup String.eqb Ascii.eqb Bool.eqb truthy]. cbv zeta.
  rewrite bindM_lift.
  destruct (extractOrderInfo o) as [info|e]; [|intros [= <- <-]; reflexivity].
  rewrite bindM_lift.
  destruct (toString (opt_get info "orderNumber")) as [number|e];
    [|intros [= <- <-]; reflexivity].
  rewrite bindM_lift.
  destruct (toString (opt_get info "customerEmail")) as [email|e];
    [|intros [= <- <-]; reflexivity].
  rewrite bindM_lift.
  destruct (extractPhoneNumberFromOrder string_is_positive o) as [phone|e];
    [|intros [= <- <-]; reflexivity].
  destruct (truthy phone) eqn:Hphone; cbn [negb].
  2:{ rewrite bindM_lift. intros [= <- <-]. left.
      split; [reflexivity | eexists; reflexivity]. }
  rewrite bindM_lift.
  destruct (generateMessageByEventType _ _ _ _ _) as [text|e];
    [|intros [= <- <-]; reflexivity].
  fold (twilio_config_of params).
  destruct (sendWhatsAppMessage_result twilio (twilio_config_of params) phone
              (VStr text)) as [sc [tr [Hs Hshape]]].
  rewrite Hs. cbn [bindM].
  assert (Hprint : exists line : string, toString (opt_get tr "success") = Ok line).
  { destruct Hshape as [[sid [status ->]] | [msg [_ ->]]]; eexists; reflexivity. }
  destruct Hprint as [sent ->]. rewrite bindM_lift. cbn [ret app].
  rewrite app_nil_r.
  intros [= <- <-]. right.
  eexists. exists phone, tr, text.
  split; [exact Hphone|]. split; [exact Hs | reflexivity].
Qed.

(** With no challenge, whatever the [try] block of [main] returns is an
    error response or the final response built from a result of
    [sendWhatsAppMessage]. *)
Lemma main_try_value
  (string_is_positive : string -> bool) (twilio : value -> value -> result Client)
  (params : obj) (calls : list event) (resp : value) :
  truthy (lookup "challenge" params) = false ->
  main_try string_is_positive twilio params = (calls, Ok resp) ->
  (exists (code : Z) (msg : string), resp = errorResponse code msg) \/
  (exists orderNumber customerPhone twilioResult : value,
     send_result twilioResult /\
     resp = VObj [("statusCode", VNum 200);
                  ("body", VObj (response_body orderNumber customerPhone
                                               twilioResult))]).
Proof.
  intros Hch Htry.
  pose proof (main_try_outcome _ _ _ _ _ Hch Htry) as Hout. cbv beta iota in Hout.
  destruct Hout as [[_ [msg ->]] | [on [cp [tr [text [_ [Hs ->]]]]]]].
  - left. exists 400, msg. reflexivity.
  - right. exists on, cp, tr. split; [|reflexivity].
    destruct (sendWhatsAppMessage_result twilio (twilio_config_of params) cp
                (VStr text)) as [sc [tr' [Hs' Hshape]]].
    rewrite Hs in Hs'. injection Hs' as _ <-. exact Hshape.
Qed.

(** [main] never throws: its [catch] block turns every error into the
    500 response. *)
Lemma main_returns
  (string_is_positive : string -> bool) (twilio : value -> value -> result Client)
  (params : obj) :
  exists (calls : list event) (resp : value),
    main string_is_positive twilio params = (calls, Ok resp).
Proof.
  unfold main. apply try_catch_returns.
  intros e. eexists. eexists. reflexivity.
Qed.

(** C9.  In every response of [main] with status 200 that is not the
    echo of a challenge, [whatsappSent] is a boolean and the body has the
    property [whatsappError] if and only if [whatsappSent] is false; the
    property then holds a non-empty text. *)
Theorem main_whatsappError_iff_not_sent :
  forall (string_is_positive : string -> bool)
         (twilio : value -> value -> result Client) (params : obj)
         (calls : list event) (resp : value),
  truthy (lookup "challenge" params) = false ->
  main string_is_positive twilio params = (calls, Ok resp) ->
  opt_get resp "statusCode" = VNum 200 ->
  exists body : obj,
    opt_get resp "body" = VObj body /\
    (lookup "whatsappSent" body = VBool true \/
     lookup "whatsappSent" body = VBool false) /\
    (has_key "whatsappError" body = true <->
     lookup "whatsappSent" body = VBool false) /\
    (has_key "whatsappError" body = true ->
     exists text : string,
       text <> "" /\ lookup "whatsappError" body = VStr text).
Proof.
  intros string_is_positive twilio params calls resp Hch Hmain Hstatus.
  unfold main in Hmain.
  destruct (main_try string_is_positive twilio params) as [t [r|e]] eqn:Htry;
    cbn [try_catch ret] in Hmain.
  - injection Hmain as _ <-.
    destruct (main_try_value _ _ _ _ _ Hch Htry)
      as [[code [msg ->]] | [orderNumber [customerPhone [tr [Hshape ->]]]]];
      [discriminate Hstatus|].
    eexists. split; [reflexivity|].
    destruct Hshape as [[sid [status ->]] | [text [Htext ->]]].
    + cbn. split; [left; reflexivity|].
      split; [split; discriminate | discriminate].
    + assert (Htruthy : truthy (VStr text) = true) by (apply truthy_VStr; exact Htext).
      unfold response_body, failure, js_and.
      cbn [opt_get lookup String.eqb Ascii.eqb Bool.eqb].
      rewrite Htruthy. cbn.
      split; [right; reflexivity|].
      split; [split; reflexivity|].
      intros _. exists text. split; [exact Htext | reflexivity].
  - injection Hmain as _ <-. discriminate Hstatus.
Qed.

Example main_sends_order_placed :
  main (fun _ => false) twilio_resolves eventWithTwilio =
  ([TwilioClient (VStr "test_sid") (VStr "test_token");
    MessagesCreate (VStr "whatsapp:+1234567890") (VStr "whatsapp:+11234567890")
      (VStr "Hi Test Customer, your order #000000008 for 100 USD has been confirmed. Thank you for your purchase!")],
   Ok (VObj [("statusCode", VNum 200);
             ("body",
              VObj [("success", VBool true);
                    ("message", VStr "Order notification processed");
                    ("orderNumber", VStr "000000008");
                    ("customerPhone", VStr "1234567890");
                    ("whatsappSent", VBool true)])])).
Proof. reflexivity. Qed.

Example main_reports_provider_failure :
  snd (main (fun _ => false) twilio_rejects eventWithTwilio) =
  Ok (VObj [("statusCode", VNum 200);
            ("body",
             VObj [("success", VBool true);
                   ("message", VStr "Order notification processed");
                   ("orderNumber", VStr "000000008");
                   ("customerPhone", VStr "1234567890");
                   ("whatsappSent", VBool false);
                   ("whatsappError", VStr "Twilio API Error")])]).
Proof. reflexivity. Qed.

Example main_without_configuration :
  main (fun _ => false) twilio_resolves mockOrderPlacedEvent =
  ([],
   Ok (VObj [("statusCode", VNum 200);
             ("body",
              VObj [("success", VBool true);
                    ("message", VStr "Order notification processed");
                    ("orderNumber", VStr "000000008");
                    ("customerPhone", VStr "1234567890");
                    ("whatsappSent", VBool false);
                    ("whatsappError",
                     VStr "Twilio configuration missing - WhatsApp notifications will not be sent")])])).
Proof. reflexivity. Qed.

(** C9 on the order-placed event of the tests when the provider rejects
    the message. *)
Lemma main_whatsappError_iff_not_sent_witness :
  exists (calls : list event) (resp : value) (body : obj),
    main (fun _ => false) twilio_rejects eventWithTwilio = (calls, Ok resp) /\
    opt_get resp "body" = VObj body /\
    (has_key "whatsappError" body = true <->
     lookup "whatsappSent" body = VBool false).
Proof.
  eexists. eexists.
  destruct (main_whatsappError_iff_not_sent (fun _ => false) twilio_rejects
              eventWithTwilio _ _ eq_refl eq_refl eq_refl)
    as [body [Hbody [_ [Hiff _]]]].
  exists body. split; [reflexivity|]. split; [exact Hbody | exact Hiff].
Defined.

(** ** The cases of the test suite

    Each case of [test/order-notification.test.js] that inspects the
    response, run through the embedding. *)

Example test_rejects_invalid_event_source :
  main (fun _ => false) twilio_resolves
       (envelope (VStr "com.example.event") (VStr "com.example")) =
  ([], Ok (errorResponse 400 "Invalid event source - not a Commerce event")).
Proof. reflexivity. Qed.

Example test_rejects_unauthorized_event_types :
  main (fun _ => false) twilio_resolves
       (envelope (VStr "com.adobe.commerce.observer.unknown_event")
                 (VStr "com.adobe.commerce")
        ++ [("data", VObj [("value", VObj [("order", VObj [])])])])%list =
  ([], Ok (errorResponse 400
             "Unauthorized event type: com.adobe.commerce.observer.unknown_event")).
Proof. reflexivity. Qed.

Example test_rejects_events_missing_order_data :
  main (fun _ => false) twilio_resolves
       (envelope (VStr PLACE_AFTER) (VStr "com.adobe.commerce")
        ++ [("data", VObj [])])%list =
  ([], Ok (errorResponse 400 "Missing order data")).
Proof. reflexivity. Qed.

Example test_shipment_event_with_tracking_number :
  fst (main (fun _ => false) twilio_resolves
         (envelope (VStr SHIPMENT_SAVE_AFTER) (VStr "com.adobe.commerce")
          ++ [("data",
               VObj [("value",
                 VObj [("shipment",
                   VObj [("order",
                          VObj [("increment_id", VStr "000000010");
                                ("customer_email", VStr "test3@example.com");
                                ("customer_firstname", VStr "John");
                                ("customer_lastname", VStr "Smith");
                                ("addresses",
                                 VArr [VObj [("telephone", VStr "5559876543")]])]);
                         ("tracks",
                          VArr [VObj [("track_number", VStr "TRACK123456")]])])])]);
              ("TWILIO_ACCOUNT_SID", VStr "test_sid");
              ("TWILIO_AUTH_TOKEN", VStr "test_token");
              ("TWILIO_WHATSAPP_FROM", VStr "whatsapp:+1234567890")])%list) =
  [TwilioClient (VStr "test_sid") (VStr "test_token");
   MessagesCreate (VStr "whatsapp:+1234567890") (VStr "whatsapp:+15559876543")
     (VStr "Hi John Smith, your order #000000010 has been shipped! Track your package using tracking number TRACK123456.")].
Proof. reflexivity. Qed.

Example test_missing_phone_number :
  main (fun _ => false) twilio_resolves
       (envelope (VStr PLACE_AFTER) (VStr "com.adobe.commerce")
        ++ [("data",
             VObj [("value",
               VObj [("order",
                 VObj [("increment_id", VStr "000000012");
                       ("addresses", VArr [VObj []]);
                       ("grand_total", VNum 100);
                       ("order_currency_code", VStr "USD")])])])])%list =
  ([], Ok (errorResponse 400 "Customer phone number not found")).
Proof. reflexivity. Qed.

Example test_phone_from_billing_address :
  snd (main (fun _ => false) twilio_resolves
         (envelope (VStr PLACE_AFTER) (VStr "com.adobe.commerce")
          ++ [("data",
               VObj [("value",
                 VObj [("order",
                   VObj [("increment_id", VStr "000000013");
                         ("customer_firstname", VStr "Test");
                         ("customer_lastname", VStr "Customer");
                         ("billing_address",
                          VObj [("telephone", VStr "5551234567")]);
                         ("grand_total", VNum 100);
                         ("order_currency_code", VStr "USD")])])]);
              ("TWILIO_ACCOUNT_SID", VStr "test_sid");
              ("TWILIO_AUTH_TOKEN", VStr "test_token");
              ("TWILIO_WHATSAPP_FROM", VStr "whatsapp:+1234567890")])%list) =
  Ok (VObj [("statusCode", VNum 200);
            ("body",
             VObj [("success", VBool true);
                   ("message", VStr "Order notification processed");
                   ("orderNumber", VStr "000000013");
                   ("customerPhone", VStr "5551234567");
                   ("whatsappSent", VBool true)])]).
Proof. reflexivity. Qed.

(** * Further properties of the code *)

(** ** Phone utilities *)

Lemma filter_app (p : ascii -> bool) (s t : string) :
  Js.filter p (s ++ t) = Js.filter p s ++ Js.filter p t.
Proof.
  induction s as [|c s IH]; simpl; [reflexivity|].
  destruct (p c); simpl; rewrite IH; reflexivity.
Qed.

Lemma starts_with_plus_not_whatsapp (r : string) :
  startsWith "+" r = true -> startsWith "whatsapp:" r = false.
Proof.
  destruct r as [|c r]; [discriminate|]. cbn [startsWith].
  destruct (Ascii.eqb "+" c) eqn:Hc; [|discriminate].
  apply Ascii.eqb_eq in Hc. subst c. reflexivity.
Qed.

(** X1.  Whatever [formatPhoneNumber] returns for a string starts with a
    plus sign, holds digits and plus signs only, and is a fixed point:
    formatting it again returns it unchanged. *)
Theorem formatPhoneNumber_result_is_fixed_point :
  forall s r : string,
  formatPhoneNumber (VStr s) = Ok (VStr r) ->
  startsWith "+" r = true /\
  Js.forallb (fun c => is_digit c || is_plus c) r = true /\
  formatPhoneNumber (VStr r) = Ok (VStr r).
Proof.
  intros s r H. split; [|split].
  - exact (formatPhoneNumber_starts_with_plus s r H).
  - exact (formatPhoneNumber_digits_and_pluses s r H).
  - exact (formatPhoneNumber_idempotent s r H).
Qed.

Lemma formatPhoneNumber_result_is_fixed_point_witness :
  startsWith "+" "+14155552671" = true /\
  Js.forallb (fun c => is_digit c || is_plus c) "+14155552671" = true /\
  formatPhoneNumber (VStr "+14155552671") = Ok (VStr "+14155552671").
Proof.
  exact (formatPhoneNumber_result_is_fixed_point "(415) 555-2671" "+14155552671"
           eq_refl).
Defined.

(** X2.  [formatPhoneNumber] sees only the digits and plus signs of its
    input: two non-empty strings that differ in other characters
    (spaces, dashes, brackets, letters) format to the same result. *)
Theorem formatPhoneNumber_ignores_separators :
  forall s1 s2 : string,
  s1 <> "" -> s2 <> "" ->
  replace_non_digit_plus s1 = replace_non_digit_plus s2 ->
  formatPhoneNumber (VStr s1) = formatPhoneNumber (VStr s2).
Proof.
  intros s1 s2 H1 H2 Heq.
  rewrite (formatPhoneNumber_string s1 H1), (formatPhoneNumber_string s2 H2).
  cbv zeta. rewrite Heq. reflexivity.
Qed.

Lemma formatPhoneNumber_ignores_separators_witness :
  formatPhoneNumber (VStr "(415) 555-2671") = formatPhoneNumber (VStr "415.555.2671").
Proof.
  apply formatPhoneNumber_ignores_separators;
    [discriminate | discriminate | reflexivity].
Defined.

(** X3.  On a non-empty string [formatPhoneForWhatsApp] always puts
    "whatsapp:" in front of the formatted number (the branch for an
    already prefixed number is never taken, since the formatted number
    starts with '+'), and its result is a fixed point: the letters and the
    colon of the prefix are cleaned away and put back. *)
Theorem formatPhoneForWhatsApp_prefixes :
  forall s : string,
  s <> "" ->
  exists r : string,
    formatPhoneNumber (VStr s) = Ok (VStr r) /\
    formatPhoneForWhatsApp (VStr s) = Ok (VStr ("whatsapp:" ++ r)) /\
    formatPhoneForWhatsApp (VStr ("whatsapp:" ++ r)) = Ok (VStr ("whatsapp:" ++ r)).
Proof.
  intros s Hs.
  assert (Hprefix : forall r : string,
            startsWith "+" r = true -> formatPhoneNumber (VStr ("whatsapp:" ++ r)) = Ok (VStr r) ->
            formatPhoneForWhatsApp (VStr ("whatsapp:" ++ r)) =
            Ok (VStr ("whatsapp:" ++ r))).
  { intros r Hplus Hfmt. unfold formatPhoneForWhatsApp. rewrite Hfmt.
    cbn [Js.bind]. assert (Hr : r <> "") by (intros ->; discriminate).
    apply truthy_VStr in Hr. rewrite Hr. cbn [negb].
    rewrite (starts_with_plus_not_whatsapp r Hplus). reflexivity. }
  assert (exists r : string, formatPhoneNumber (VStr s) = Ok (VStr r)) as [r Hstr]
    by (eexists; exact (formatPhoneNumber_string s Hs)).
  exists r. split; [exact Hstr|].
  pose proof (formatPhoneNumber_starts_with_plus s r Hstr) as Hplus.
  pose proof (formatPhoneNumber_digits_and_pluses s r Hstr) as Hchars.
  assert (Hr : truthy (VStr r) = true)
    by (apply truthy_VStr; intros ->; discriminate).
  split.
  - unfold formatPhoneForWhatsApp. rewrite Hstr. cbn [Js.bind].
    rewrite Hr. cbn [negb].
    rewrite (starts_with_plus_not_whatsapp r Hplus). reflexivity.
  - apply Hprefix; [exact Hplus|].
    rewrite formatPhoneNumber_string by discriminate. cbv zeta.
    unfold replace_non_digit_plus. rewrite filter_app.
    change (Js.filter (fun c => is_digit c || is_plus c) "whatsapp:") with "".
    cbn [append]. rewrite (filter_id _ _ Hchars), Hplus. reflexivity.
Qed.

Lemma formatPhoneForWhatsApp_prefixes_witness :
  exists r : string,
    formatPhoneNumber (VStr "1234567890") = Ok (VStr r) /\
    formatPhoneForWhatsApp (VStr "1234567890") = Ok (VStr ("whatsapp:" ++ r)) /\
    formatPhoneForWhatsApp (VStr ("whatsapp:" ++ r)) = Ok (VStr ("whatsapp:" ++ r)).
Proof.
  apply formatPhoneForWhatsApp_prefixes. discriminate.
Defined.

(** X4.  [formatPhoneNumber] and [formatPhoneForWhatsApp] throw exactly
    on a truthy input that is not a string (a number, [true], an array or
    an object has no [replace] method); on a string and on a falsy value
    they return. *)
Theorem formatPhoneNumber_throws_iff :
  forall v : value,
  ((exists e : JsError, formatPhoneNumber v = Throw e) <->
   truthy v = true /\ forall s : string, v <> VStr s) /\
  ((exists e : JsError, formatPhoneForWhatsApp v = Throw e) <->
   truthy v = true /\ forall s : string, v <> VStr s).
Proof.
  intros v.
  assert (Hfmt : (exists e : JsError, formatPhoneNumber v = Throw e) <->
                 truthy v = true /\ forall s : string, v <> VStr s).
  { destruct v as [| |b|n|s|items|props].
    - split; [intros [e H]; discriminate H | intros [H _]; discriminate H].
    - split; [intros [e H]; discriminate H | intros [H _]; discriminate H].
    - destruct b.
      + split; [intros _; split; [reflexivity | discriminate]
               | intros _; eexists; reflexivity].
      + split; [intros [e H]; discriminate H | intros [H _]; discriminate H].
    - unfold formatPhoneNumber. destruct n as [z|positive text]; simpl;
        [destruct (z =? 0); simpl|].
      + split; [intros [e H]; discriminate H | intros [H _]; discriminate H].
      + split; [intros _; split; [reflexivity | discriminate]
               | intros _; eexists; reflexivity].
      + split; [intros _; split; [reflexivity | discriminate]
               | intros _; eexists; reflexivity].
    - split.
      + intros [e H]. destruct s as [|c s]; [discriminate H|].
        rewrite formatPhoneNumber_string in H by discriminate. discriminate H.
      + intros [_ H]. now elim (H s).
    - split; [intros _; split; [reflexivity | discriminate]
             | intros _; eexists; reflexivity].
    - split; [intros _; split; [reflexivity | discriminate]
             | intros _; eexists; reflexivity]. }
  split; [exact Hfmt|].
  rewrite <- Hfmt. unfold formatPhoneForWhatsApp.
  destruct (formatPhoneNumber v) as [f|e] eqn:Hf; cbn [Js.bind].
  - split; [|intros [e H]; discriminate H].
    intros [e H]. destruct (truthy f) eqn:Htf; cbn [negb] in H; [|discriminate H].
    destruct f; try discriminate Htf.
    + (* a boolean, a number, an array or an object is never returned *)
      destruct v as [| |b'|n|s|items|props]; try discriminate Hf.
      * destruct b'; discriminate Hf.
      * unfold formatPhoneNumber in Hf. destruct n as [z|positive text]; simpl in Hf;
          [destruct (z =? 0)|]; discriminate Hf.
      * destruct s as [|c s]; [discriminate Hf|].
        rewrite formatPhoneNumber_string in Hf by discriminate. discriminate Hf.
    + destruct v as [| |b'|n0|s|items|props]; try discriminate Hf.
      * destruct b'; discriminate Hf.
      * unfold formatPhoneNumber in Hf. destruct n0 as [z|positive text]; simpl in Hf;
          [destruct (z =? 0)|]; discriminate Hf.
      * destruct s as [|c s]; [discriminate Hf|].
        rewrite formatPhoneNumber_string in Hf by discriminate. discriminate Hf.
    + destruct (startsWith "whatsapp:" s); discriminate H.
    + destruct v as [| |b'|n0|s|its|props]; try discriminate Hf.
      * destruct b'; discriminate Hf.
      * unfold formatPhoneNumber in Hf. destruct n0 as [z|positive text]; simpl in Hf;
          [destruct (z =? 0)|]; discriminate Hf.
      * destruct s as [|c s]; [discriminate Hf|].
        rewrite formatPhoneNumber_string in Hf by discriminate. discriminate Hf.
    + destruct v as [| |b'|n0|s|its|props']; try discriminate Hf.
      * destruct b'; discriminate Hf.
      * unfold formatPhoneNumber in Hf. destruct n0 as [z|positive text]; simpl in Hf;
          [destruct (z =? 0)|]; discriminate Hf.
      * destruct s as [|c s]; [discriminate Hf|].
        rewrite formatPhoneNumber_string in Hf by discriminate. discriminate Hf.
  - split; intros _; exists e; reflexivity.
Qed.

Lemma formatPhoneNumber_throws_iff_witness :
  (exists e : JsError, formatPhoneNumber (VNum 1234567890) = Throw e) /\
  (exists e : JsError, formatPhoneForWhatsApp (VNum 1234567890) = Throw e).
Proof.
  split.
  - apply (proj1 (formatPhoneNumber_throws_iff (VNum 1234567890))).
    split; [reflexivity | discriminate].
  - apply (proj2 (formatPhoneNumber_throws_iff (VNum 1234567890))).
    split; [reflexivity | discriminate].
Defined.

(** An address entry that the loop passes over: it is an object (or any
    value other than null and undefined) without a truthy [telephone]. *)
Lemma scan_addresses_found (pre rest : list value) (a : value) :
  Forall (fun x => nullish x = false /\ truthy (opt_get x "telephone") = false) pre ->
  nullish a = false -> truthy (opt_get a "telephone") = true ->
  scan_addresses (pre ++ a :: rest) = Ok (Some (opt_get a "telephone")).
Proof.
  intros Hpre Ha Htel. induction Hpre as [|x pre [Hx Hxt] _ IH]; simpl.
  - rewrite (get_defined a _ Ha). cbn [Js.bind]. rewrite Htel. reflexivity.
  - rewrite (get_defined x _ Hx). cbn [Js.bind]. rewrite Hxt. exact IH.
Qed.

Lemma scan_addresses_none (items : list value) :
  Forall (fun x => nullish x = false /\ truthy (opt_get x "telephone") = false) items ->
  scan_addresses items = Ok None.
Proof.
  intros H. induction H as [|x items [Hx Hxt] _ IH]; simpl; [reflexivity|].
  rewrite (get_defined x _ Hx). cbn [Js.bind]. rewrite Hxt. exact IH.
Qed.

Lemma scan_addresses_throws (pre rest : list value) (x : value) :
  Forall (fun x => nullish x = false /\ truthy (opt_get x "telephone") = false) pre ->
  nullish x = true ->
  exists e : JsError, scan_addresses (pre ++ x :: rest) = Throw e.
Proof.
  intros Hpre Hx. induction Hpre as [|y pre [Hy Hyt] _ IH]; simpl.
  - destruct x; try discriminate Hx; eexists; reflexivity.
  - rewrite (get_defined y _ Hy). cbn [Js.bind]. rewrite Hyt. exact IH.
Qed.

Lemma scan_addresses_truthy (items : list value) (t : value) :
  scan_addresses items = Ok (Some t) -> truthy t = true.
Proof.
  induction items as [|x items IH]; simpl; [discriminate|].
  destruct (get x "telephone") as [tel|e]; cbn [Js.bind]; [|discriminate].
  destruct (truthy tel) eqn:Htel; [intros [= <-]; exact Htel | exact IH].
Qed.

(** X5.  [extractPhoneNumberFromOrder] prefers the addresses: when
    [addresses] is an array in which some entry has a truthy [telephone]
    and the entries before it are objects without one, the telephone of
    that entry is returned, whatever [billing_address] and
    [shipping_address] hold. *)
Theorem extractPhoneNumberFromOrder_first_address :
  forall (string_is_positive : string -> bool) (orderData a : value)
         (pre rest : list value),
  opt_get orderData "addresses" = VArr (pre ++ a :: rest) ->
  Forall (fun x => nullish x = false /\ truthy (opt_get x "telephone") = false) pre ->
  nullish a = false -> truthy (opt_get a "telephone") = true ->
  extractPhoneNumberFromOrder string_is_positive orderData =
  Ok (opt_get a "telephone").
Proof.
  intros sip orderData a pre rest Haddr Hpre Ha Htel.
  assert (Horder : truthy orderData = true).
  { destruct orderData; try discriminate Haddr. reflexivity. }
  unfold extractPhoneNumberFromOrder. rewrite Horder, Haddr. cbn [negb truthy].
  assert (Hlen : js_gt_zero sip (js_length (VArr (pre ++ a :: rest))) = Ok true).
  { simpl. f_equal. apply Z.ltb_lt. rewrite length_app. simpl. lia. }
  rewrite Hlen. cbn [Js.bind for_of_addresses].
  rewrite (scan_addresses_found pre rest a Hpre Ha Htel). reflexivity.
Qed.

Lemma extractPhoneNumberFromOrder_first_address_witness :
  extractPhoneNumberFromOrder (fun _ => false)
    (VObj [("addresses", VArr [VObj []; VObj [("telephone", VStr "5551234567")]]);
           ("billing_address", VObj [("telephone", VStr "5550000000")])]) =
  Ok (VStr "5551234567").
Proof.
  apply (extractPhoneNumberFromOrder_first_address (fun _ => false) _
           (VObj [("telephone", VStr "5551234567")]) [VObj []] []).
  - reflexivity.
  - repeat constructor.
  - reflexivity.
  - reflexivity.
Defined.

(** X6.  When [addresses] is missing (falsy) or an array of objects none
    of which has a truthy [telephone], the telephone of
    [billing_address] is returned if it is truthy, else that of
    [shipping_address] if it is truthy, else null. *)
Theorem extractPhoneNumberFromOrder_fallback :
  forall (string_is_positive : string -> bool) (orderData : value),
  truthy orderData = true ->
  truthy (opt_get orderData "addresses") = false \/
  (exists items : list value,
     opt_get orderData "addresses" = VArr items /\
     Forall (fun x => nullish x = false /\ truthy (opt_get x "telephone") = false)
            items) ->
  extractPhoneNumberFromOrder string_is_positive orderData =
  Ok (if truthy (opt_get (opt_get orderData "billing_address") "telephone")
      then opt_get (opt_get orderData "billing_address") "telephone"
      else if truthy (opt_get (opt_get orderData "shipping_address") "telephone")
      then opt_get (opt_get orderData "shipping_address") "telephone"
      else VNull).
Proof.
  intros sip orderData Horder Haddr.
  unfold extractPhoneNumberFromOrder. rewrite Horder. cbn [negb].
  assert (Hfound :
    (if truthy (opt_get orderData "addresses")
     then
       positive <- js_gt_zero sip (js_length (opt_get orderData "addresses")) ;;
       if (positive : bool)
       then for_of_addresses (opt_get orderData "addresses")
       else Ok None
     else Ok None) = Ok None).
  { destruct Haddr as [-> | [items [-> Hitems]]]; [reflexivity|].
    cbn [truthy js_length js_gt_zero Js.bind].
    destruct (0 <? _); [|reflexivity].
    cbn [for_of_addresses]. exact (scan_addresses_none items Hitems). }
  rewrite Hfound. cbn [Js.bind].
  destruct (truthy (opt_get (opt_get orderData "billing_address") "telephone"));
    [reflexivity|].
  destruct (truthy (opt_get (opt_get orderData "shipping_address") "telephone"));
    reflexivity.
Qed.

Lemma extractPhoneNumberFromOrder_fallback_witness :
  extractPhoneNumberFromOrder (fun _ => false)
    (VObj [("addresses", VArr [VObj []]);
           ("shipping_address", VObj [("telephone", VStr "5559876543")])]) =
  Ok (VStr "5559876543") /\
  extractPhoneNumberFromOrder (fun _ => false)
    (VObj [("billing_address", VObj [("telephone", VStr "5551234567")]);
           ("shipping_address", VObj [("telephone", VStr "5559876543")])]) =
  Ok (VStr "5551234567") /\
  extractPhoneNumberFromOrder (fun _ => false) (VObj [("addresses", VArr [VObj []])]) =
  Ok VNull.
Proof.
  split; [|split].
  - apply (extractPhoneNumberFromOrder_fallback (fun _ => false)
             (VObj [("addresses", VArr [VObj []]);
                    ("shipping_address", VObj [("telephone", VStr "5559876543")])])
             eq_refl).
    right. exists [VObj []]. split; [reflexivity | repeat constructor].
  - apply (extractPhoneNumberFromOrder_fallback (fun _ => false)
             (VObj [("billing_address", VObj [("telephone", VStr "5551234567")]);
                    ("shipping_address", VObj [("telephone", VStr "5559876543")])])
             eq_refl).
    left. reflexivity.
  - apply (extractPhoneNumberFromOrder_fallback (fun _ => false)
             (VObj [("addresses", VArr [VObj []])]) eq_refl).
    right. exists [VObj []]. split; [reflexivity | repeat constructor].
Defined.

(** X7.  Whatever [extractPhoneNumberFromOrder] returns is null or
    truthy: it never returns undefined, an empty string or another falsy
    value as a telephone number. *)
Theorem extractPhoneNumberFromOrder_null_or_truthy :
  forall (string_is_positive : string -> bool) (orderData v : value),
  extractPhoneNumberFromOrder string_is_positive orderData = Ok v ->
  v = VNull \/ truthy v = true.
Proof.
  intros sip orderData v. unfold extractPhoneNumberFromOrder.
  destruct (truthy orderData); cbn [negb]; [|intros [= <-]; left; reflexivity].
  destruct (if truthy (opt_get orderData "addresses")
            then
              positive <- js_gt_zero sip (js_length (opt_get orderData "addresses")) ;;
              if (positive : bool)
              then for_of_addresses (opt_get orderData "addresses")
              else Ok None
            else Ok None) as [[t|]|e] eqn:Hfound; cbn [Js.bind]; [| |discriminate].
  - intros [= <-]. right.
    destruct (truthy (opt_get orderData "addresses")); [|discriminate Hfound].
    destruct (js_gt_zero sip _) as [[|]|e]; cbn [Js.bind] in Hfound;
      try discriminate Hfound.
    unfold for_of_addresses in Hfound.
    destruct (opt_get orderData "addresses"); try discriminate Hfound;
      exact (scan_addresses_truthy _ _ Hfound).
  - destruct (truthy (opt_get (opt_get orderData "billing_address") "telephone"))
      eqn:Hb; [intros [= <-]; right; exact Hb|].
    destruct (truthy (opt_get (opt_get orderData "shipping_address") "telephone"))
      eqn:Hs; intros [= <-]; [right; exact Hs | left; reflexivity].
Qed.

Lemma extractPhoneNumberFromOrder_null_or_truthy_witness :
  VStr "1234567890" = VNull \/ truthy (VStr "1234567890") = true.
Proof.
  exact (extractPhoneNumberFromOrder_null_or_truthy (fun _ => false) order_placed
           (VStr "1234567890") eq_refl).
Defined.

(** X8.  A null or undefined entry of [addresses] that the loop reaches
    (no entry before it has a truthy [telephone]) makes
    [extractPhoneNumberFromOrder] throw, even when a later entry or
    [billing_address] holds a telephone. *)
Theorem extractPhoneNumberFromOrder_null_entry_throws :
  forall (string_is_positive : string -> bool) (orderData x : value)
         (pre rest : list value),
  opt_get orderData "addresses" = VArr (pre ++ x :: rest) ->
  Forall (fun x => nullish x = false /\ truthy (opt_get x "telephone") = false) pre ->
  nullish x = true ->
  exists e : JsError,
    extractPhoneNumberFromOrder string_is_positive orderData = Throw e.
Proof.
  intros sip orderData x pre rest Haddr Hpre Hx.
  assert (Horder : truthy orderData = true).
  { destruct orderData; try discriminate Haddr. reflexivity. }
  unfold extractPhoneNumberFromOrder. rewrite Horder, Haddr. cbn [negb truthy].
  assert (Hlen : js_gt_zero sip (js_length (VArr (pre ++ x :: rest))) = Ok true).
  { simpl. f_equal. apply Z.ltb_lt. rewrite length_app. simpl. lia. }
  rewrite Hlen. cbn [Js.bind for_of_addresses].
  destruct (scan_addresses_throws pre rest x Hpre Hx) as [e ->].
  exists e. reflexivity.
Qed.

Lemma extractPhoneNumberFromOrder_null_entry_throws_witness :
  exists e : JsError,
    extractPhoneNumberFromOrder (fun _ => false)
      (VObj [("addresses", VArr [VNull; VObj [("telephone", VStr "5551234567")]]);
             ("billing_address", VObj [("telephone", VStr "5550000000")])]) =
    Throw e.
Proof.
  apply (extractPhoneNumberFromOrder_null_entry_throws (fun _ => false) _
           VNull [] [VObj [("telephone", VStr "5551234567")]]).
  - reflexivity.
  - constructor.
  - reflexivity.
Defined.

(** ** Order data extractor *)

Lemma append_nil_r (s : string) : s ++ "" = s.
Proof. induction s as [|c s IH]; simpl; [reflexivity | rewrite IH; reflexivity]. Qed.

Lemma append_assoc (s t u : string) : (s ++ t) ++ u = s ++ (t ++ u).
Proof. induction s as [|c s IH]; simpl; [reflexivity | rewrite IH; reflexivity]. Qed.

Lemma rev_append (s t : string) : Js.rev (s ++ t) = Js.rev t ++ Js.rev s.
Proof.
  induction s as [|c s IH]; simpl.
  - rewrite append_nil_r. reflexivity.
  - rewrite IH, append_assoc. reflexivity.
Qed.

Lemma rev_involutive (s : string) : Js.rev (Js.rev s) = s.
Proof.
  induction s as [|c s IH]; simpl; [reflexivity|].
  rewrite rev_append, IH. reflexivity.
Qed.

Lemma trimStart_no_space (s : string) : starts_with_space (trimStart s) = false.
Proof.
  induction s as [|c s IH]; simpl; [reflexivity|].
  destruct (is_space c) eqn:Hc; [exact IH | simpl; exact Hc].
Qed.

(** [trimStart] removes a prefix. *)
Lemma trimStart_suffix (s : string) : exists p : string, s = p ++ trimStart s.
Proof.
  induction s as [|c s [p IH]]; simpl.
  - exists "". reflexivity.
  - destruct (is_space c).
    + exists (String c p). simpl. rewrite <- IH. reflexivity.
    + exists "". reflexivity.
Qed.

Lemma starts_with_space_append (a b : string) :
  a <> "" -> starts_with_space (a ++ b) = starts_with_space a.
Proof. destruct a; [contradiction | reflexivity]. Qed.

(** [trim] leaves no white space at either end. *)
Lemma trim_no_space (s : string) :
  starts_with_space (trim s) = false /\ starts_with_space (Js.rev (trim s)) = false.
Proof.
  unfold trim. split.
  - destruct (trimStart_suffix (Js.rev (trimStart s))) as [p Hp].
    set (u := trimStart (Js.rev (trimStart s))) in *.
    destruct (Js.rev u) as [|c r] eqn:Hu; [reflexivity|].
    assert (Ht : trimStart s = Js.rev u ++ Js.rev p).
    { rewrite <- rev_append, <- Hp, rev_involutive. reflexivity. }
    pose proof (trimStart_no_space s) as Hs. rewrite Ht, Hu in Hs. exact Hs.
  - rewrite rev_involutive. apply trimStart_no_space.
Qed.

Lemma trimStart_space_cons (s : string) : trimStart (String " " s) = trimStart s.
Proof. reflexivity. Qed.

(** X9.  On an order that is not null or undefined [extractOrderInfo]
    throws exactly when the first or the last name (or the empty string
    that stands in for a missing one) cannot be printed, which is the case
    of an object with a [toString] property of its own.  Otherwise it
    returns; the customer name it builds is the trimmed "first last", a
    string without white space at its beginning or its end, just the
    trimmed last name when the first name is missing and the empty string
    when both are missing; the order number is [increment_id] when that is
    truthy and [entity_id] otherwise. *)
Theorem extractOrderInfo_customer_name :
  forall orderData : value,
  nullish orderData = false ->
  let first := js_or (opt_get orderData "customer_firstname") (VStr "") in
  let last := js_or (opt_get orderData "customer_lastname") (VStr "") in
  ((exists e : JsError, extractOrderInfo orderData = Throw e) <->
   printable first = false \/ printable last = false) /\
  (forall f l : string,
     toString first = Ok f -> toString last = Ok l ->
     exists info : value,
       extractOrderInfo orderData = Ok info /\
       opt_get info "customerName" = VStr (trim (f ++ " " ++ l)) /\
       starts_with_space (trim (f ++ " " ++ l)) = false /\
       starts_with_space (Js.rev (trim (f ++ " " ++ l))) = false /\
       (truthy (opt_get orderData "customer_firstname") = false ->
        trim (f ++ " " ++ l) = trim l) /\
       (truthy (opt_get orderData "customer_firstname") = false ->
        truthy (opt_get orderData "customer_lastname") = false ->
        trim (f ++ " " ++ l) = "") /\
       opt_get info "customerEmail" = opt_get orderData "customer_email" /\
       opt_get info "orderNumber" =
         (if truthy (opt_get orderData "increment_id")
          then opt_get orderData "increment_id"
          else opt_get orderData "entity_id")).
Proof.
  intros orderData Hdef first last. unfold extractOrderInfo, printable.
  rewrite !(get_defined orderData) by exact Hdef. cbn [Js.bind].
  fold first last. split.
  - destruct (toString first) as [f|e]; cbn [Js.bind].
    + destruct (toString last) as [l|e]; cbn [Js.bind].
      * split; [intros [e H]; discriminate H | intros [H|H]; discriminate H].
      * split; [intros _; right; reflexivity | intros _; eexists; reflexivity].
    + split; [intros _; left; reflexivity | intros _; eexists; reflexivity].
  - intros f l Hf Hl. rewrite Hf, Hl. cbn [Js.bind].
    eexists. split; [reflexivity|].
    split; [reflexivity|].
    split; [apply trim_no_space|]. split; [apply trim_no_space|].
    split; [|split; [|split; reflexivity]].
    + intros Hfirst. subst first. unfold js_or in Hf. rewrite Hfirst in Hf.
      injection Hf as <-. cbn [append]. unfold trim at 1.
      rewrite trimStart_space_cons. reflexivity.
    + intros Hfirst Hlast. subst first last. unfold js_or in Hf, Hl.
      rewrite Hfirst in Hf. rewrite Hlast in Hl.
      injection Hf as <-. injection Hl as <-. reflexivity.
Qed.

Lemma extractOrderInfo_customer_name_witness :
  (exists info : value,
     extractOrderInfo (VObj [("entity_id", VNum 8); ("customer_lastname", VStr "Doe ")]) =
       Ok info /\
     opt_get info "customerName" = VStr "Doe" /\ opt_get info "orderNumber" = VNum 8) /\
  exists e : JsError,
    extractOrderInfo
      (VObj [("customer_firstname", VObj [("toString", VNum 1)])]) = Throw e.
Proof.
  split.
  - destruct (proj2 (extractOrderInfo_customer_name
                (VObj [("entity_id", VNum 8); ("customer_lastname", VStr "Doe ")])
                eq_refl) "" "Doe " eq_refl eq_refl)
      as [info [Hinfo [Hname [_ [_ [_ [_ [_ Hnumber]]]]]]]].
    exists info. split; [exact Hinfo|]. split; [exact Hname | exact Hnumber].
  - apply (proj1 (extractOrderInfo_customer_name
             (VObj [("customer_firstname", VObj [("toString", VNum 1)])]) eq_refl)).
    left. reflexivity.
Defined.

Lemma opt_index0_falsy (v : value) : truthy v = false -> opt_index0 v = VUndefined.
Proof. destruct v as [| |b|n|s|items|props]; simpl; try reflexivity; try discriminate.
  destruct s; [reflexivity | discriminate]. Qed.

Lemma js_or_null (t : value) :
  truthy (js_or t VNull) = truthy t /\
  (truthy (js_or t VNull) = true -> js_or t VNull = t) /\
  (truthy (js_or t VNull) = false -> js_or t VNull = VNull).
Proof.
  unfold js_or. destruct (truthy t) eqn:Ht.
  - split; [exact Ht|]. split; [reflexivity|]. rewrite Ht. discriminate.
  - split; [reflexivity|]. split; [discriminate | reflexivity].
Qed.

(** X10.  When [tracks] is missing or an array, a tracking number that
    [extractTrackingNumber] returns is the one that
    [generateMessageByEventType] reads for itself, up to the falsy value
    that stands for "none" (null for the one, undefined for the other):
    both lead to the same shipment message. *)
Theorem extractTrackingNumber_agrees_with_message :
  forall shipmentData v : value,
  truthy (opt_get shipmentData "tracks") = false \/
  (exists items : list value, opt_get shipmentData "tracks" = VArr items) ->
  extractTrackingNumber shipmentData = Ok v ->
  truthy v = truthy (inline_tracking shipmentData) /\
  (truthy v = true -> v = inline_tracking shipmentData) /\
  (truthy v = false -> v = VNull) /\
  forall customerName orderNumber : value,
    generateShipmentMessage customerName orderNumber v =
    generateShipmentMessage customerName orderNumber (inline_tracking shipmentData).
Proof.
  intros shipmentData v Htracks Hv.
  assert (Hcore : truthy v = truthy (inline_tracking shipmentData) /\
                  (truthy v = true -> v = inline_tracking shipmentData) /\
                  (truthy v = false -> v = VNull)).
  { unfold extractTrackingNumber in Hv. unfold inline_tracking, first_track.
    destruct (truthy shipmentData) eqn:Hsd; cbn [negb orb] in Hv.
    2:{ injection Hv as <-. rewrite (opt_get_falsy _ "tracks" Hsd).
        repeat split; try reflexivity. discriminate. }
    destruct Htracks as [Hfalsy | [items Hitems]].
    - rewrite Hfalsy in Hv. cbn [negb orb] in Hv. injection Hv as <-.
      rewrite (opt_index0_falsy _ Hfalsy).
      repeat split; try reflexivity. discriminate.
    - rewrite Hitems in *. cbn [truthy negb orb js_length strict_eq_zero] in Hv.
      destruct items as [|track rest].
      + simpl in Hv. injection Hv as <-.
        repeat split; try reflexivity. discriminate.
      + assert (Hlen : (Z.of_nat (List.length (track :: rest)) =? 0) = false).
        { apply Z.eqb_neq. simpl List.length. lia. }
        rewrite Hlen in Hv. cbn [opt_index0] in *.
        destruct (nullish track) eqn:Hn.
        * destruct track; try discriminate Hn; discriminate Hv.
        * rewrite !(get_defined track) in Hv by exact Hn. cbn [Js.bind] in Hv.
          injection Hv as <-. apply js_or_null. }
  destruct Hcore as [H1 [H2 H3]]. repeat split; try assumption.
  intros customerName orderNumber. unfold generateShipmentMessage.
  rewrite <- H1. destruct (truthy v) eqn:Htv; [|reflexivity].
  rewrite <- (H2 eq_refl). reflexivity.
Qed.

Lemma extractTrackingNumber_agrees_with_message_witness :
  truthy (VStr "TRACK123456") = truthy (inline_tracking shipment_tracked) /\
  (truthy (VStr "TRACK123456") = true ->
   VStr "TRACK123456" = inline_tracking shipment_tracked).
Proof.
  destruct (extractTrackingNumber_agrees_with_message shipment_tracked
              (VStr "TRACK123456")
              (or_intror (ex_intro _ [VObj [("track_number", VStr "TRACK123456")]]
                                   eq_refl))
              eq_refl) as [H1 [H2 _]].
  split; [exact H1 | exact H2].
Defined.

(** X11.  A first track that is null or undefined makes
    [extractTrackingNumber] throw, while [generateMessageByEventType],
    which reads the track through optional chaining, still produces the
    shipment message without tracking clause. *)
Theorem extractTrackingNumber_null_track_throws :
  forall (shipmentData track orderData customerName orderNumber : value)
         (rest : list value),
  opt_get shipmentData "tracks" = VArr (track :: rest) ->
  nullish track = true -> nullish orderData = false ->
  (exists e : JsError, extractTrackingNumber shipmentData = Throw e) /\
  generateMessageByEventType (VStr SHIPMENT_SAVE_AFTER) orderData customerName
    orderNumber shipmentData =
  (name <- toString customerName ;;
   order <- toString orderNumber ;;
   Ok ("Hi " ++ name ++ ", your order #" ++ order ++ " has been shipped!")).
Proof.
  intros shipmentData track orderData customerName orderNumber rest Ht Hn Ho. split.
  - assert (Hsd : truthy shipmentData = true).
    { destruct shipmentData; try discriminate Ht. reflexivity. }
    unfold extractTrackingNumber. rewrite Hsd, Ht.
    cbn [truthy negb orb js_length strict_eq_zero].
    assert (Hlen : (Z.of_nat (List.length (track :: rest)) =? 0) = false).
    { apply Z.eqb_neq. simpl List.length. lia. }
    rewrite Hlen. cbn [opt_index0].
    destruct track; try discriminate Hn; eexists; reflexivity.
  - rewrite (generateMessageByEventType_defined _ _ _ _ _ Ho). cbv zeta.
    change (strict_eq_str (VStr SHIPMENT_SAVE_AFTER) CANCEL_AFTER) with false.
    change (strict_eq_str (VStr SHIPMENT_SAVE_AFTER) PLACE_AFTER) with false.
    change (strict_eq_str (VStr SHIPMENT_SAVE_AFTER) SHIPMENT_SAVE_AFTER) with true.
    cbv iota. unfold first_track. rewrite Ht. cbn [opt_index0].
    destruct track; try discriminate Hn; reflexivity.
Qed.

Lemma extractTrackingNumber_null_track_throws_witness :
  (exists e : JsError,
     extractTrackingNumber (VObj [("tracks", VArr [VNull])]) = Throw e) /\
  generateMessageByEventType (VStr SHIPMENT_SAVE_AFTER) order_placed
    (VStr "John Smith") (VStr "000000010") (VObj [("tracks", VArr [VNull])]) =
  Ok "Hi John Smith, your order #000000010 has been shipped!".
Proof.
  exact (extractTrackingNumber_null_track_throws (VObj [("tracks", VArr [VNull])])
           VNull order_placed (VStr "John Smith") (VStr "000000010") []
           eq_refl eq_refl eq_refl).
Defined.

(** ** Event validator *)

(** What the null result of [validateEvent] requires of [type]. *)
Lemma validateEvent_null_type (params : obj) :
  validateEvent params = Ok VNull ->
  truthy (lookup "source" params) = true /\
  exists t : string, lookup "type" params = VStr t /\ In t ALLOWED_EVENT_TYPES.
Proof.
  intros H.
  destruct (validateEvent_returns params VNull H) as [[_ Hok] | [msg Hm]];
    [exact Hok | discriminate Hm].
Qed.

(** X12.  For an envelope whose [source] is a string, [validateEvent]
    returns null if and only if the source is not empty and [type] is one
    of the four allowed strings: the allow-list alone decides, the
    namespace check rejects nothing that the allow-list would accept. *)
Theorem validateEvent_null_iff_allowed :
  forall (params : obj) (s : string),
  lookup "source" params = VStr s ->
  (validateEvent params = Ok VNull <->
   s <> "" /\
   exists t : string, lookup "type" params = VStr t /\ In t ALLOWED_EVENT_TYPES).
Proof.
  intros params s Hs. split.
  - intros H. destruct (validateEvent_null_type params H) as [Hsrc Ht].
    split; [|exact Ht]. rewrite Hs in Hsrc. apply truthy_VStr. exact Hsrc.
  - intros [Hne [t [Ht Hin]]].
    assert (Htne : t <> "").
    { intros ->. apply allowed_includes_namespace in Hin. discriminate. }
    rewrite (validateEvent_strings params t s Ht Hs Htne Hne).
    rewrite (allowed_includes_namespace t Hin).
    apply allowed_existsb in Hin. rewrite Hin. reflexivity.
Qed.

Lemma validateEvent_null_iff_allowed_witness :
  validateEvent
    (envelope (VStr "com.adobe.commerce.observer.sales_order_cancel_after")
              (VStr "urn:uuid:1")) = Ok VNull.
Proof.
  apply (proj2 (validateEvent_null_iff_allowed
                  (envelope (VStr "com.adobe.commerce.observer.sales_order_cancel_after")
                            (VStr "urn:uuid:1"))
                  "urn:uuid:1" eq_refl)).
  split; [discriminate|].
  exists "com.adobe.commerce.observer.sales_order_cancel_after".
  split; [reflexivity|]. right. right. right. left. reflexivity.
Defined.

Lemma validateEvent_missing_field (params : obj) :
  truthy (lookup "type" params) = false \/ truthy (lookup "source" params) = false ->
  validateEvent params = Ok (errorResponse 400 "Invalid event structure").
Proof.
  intros H. unfold validateEvent, validateCloudEventStructure.
  assert (Hor : negb (truthy (lookup "type" params))
                || negb (truthy (lookup "source" params)) = true).
  { destruct H as [-> | ->]; [reflexivity | apply orb_true_r]. }
  rewrite Hor. reflexivity.
Qed.

(** X13.  [validateEvent] does not throw on an envelope whose [type] and
    [source] are each missing (falsy) or a string: it returns null or a
    400 error response.  It throws when [source] is present and [type] is
    a number, [true] or an object, which have no [includes] method. *)
Theorem validateEvent_throws_only_on_ill_typed :
  forall params : obj,
  ((truthy (lookup "type" params) = false \/
    exists t : string, lookup "type" params = VStr t) ->
   (truthy (lookup "source" params) = false \/
    exists s : string, lookup "source" params = VStr s) ->
   validateEvent params = Ok VNull \/
   exists msg : string, validateEvent params = Ok (errorResponse 400 msg)) /\
  (truthy (lookup "type" params) = true ->
   truthy (lookup "source" params) = true ->
   (forall t : string, lookup "type" params <> VStr t) ->
   (forall items : list value, lookup "type" params <> VArr items) ->
   exists e : JsError, validateEvent params = Throw e).
Proof.
  intros params. split.
  - intros Htype Hsource.
    destruct (truthy (lookup "type" params)) eqn:Htt.
    2:{ right. eexists.
        apply validateEvent_missing_field. left. exact Htt. }
    destruct (truthy (lookup "source" params)) eqn:Hts.
    2:{ right. eexists.
        apply validateEvent_missing_field. right. exact Hts. }
    destruct Htype as [Hf | [t Ht]]; [congruence|].
    destruct Hsource as [Hf | [s Hs]]; [congruence|].
    rewrite Ht in Htt. rewrite Hs in Hts.
    apply truthy_VStr in Htt, Hts.
    rewrite (validateEvent_strings params t s Ht Hs Htt Hts).
    destruct (negb (includes "com.adobe.commerce" t)); [right; eexists; reflexivity|].
    destruct (negb (existsb _ _)); [right; eexists; reflexivity | left; reflexivity].
  - intros Htt Hts Hnostr Hnoarr.
    unfold validateEvent, validateCloudEventStructure, validateCommerceEvent.
    rewrite Htt, Hts. cbn [negb orb truthy].
    destruct (lookup "type" params) as [| |b|n|t|items|props];
      try discriminate Htt;
      try (eexists; reflexivity).
    + now elim (Hnostr t).
    + now elim (Hnoarr items).
Qed.

Lemma validateEvent_throws_only_on_ill_typed_witness :
  (validateEvent (envelope (VStr "com.example.event") VUndefined) = Ok VNull \/
   exists msg : string,
     validateEvent (envelope (VStr "com.example.event") VUndefined) =
     Ok (errorResponse 400 msg)) /\
  exists e : JsError,
    validateEvent (envelope (VNum 42) (VStr "com.adobe.commerce")) = Throw e.
Proof.
  split.
  - apply (proj1 (validateEvent_throws_only_on_ill_typed
                    (envelope (VStr "com.example.event") VUndefined))).
    + right. exists "com.example.event". reflexivity.
    + left. reflexivity.
  - apply (proj2 (validateEvent_throws_only_on_ill_typed
                    (envelope (VNum 42) (VStr "com.adobe.commerce"))));
      [reflexivity | reflexivity | discriminate | discriminate].
Defined.

(** ** Event data *)

(** X14.  On the four allowed event types the substring test with which
    [extractEventData] recognises a shipment event agrees with the
    equality test with which [generateMessageByEventType] chooses the
    shipment message. *)
Theorem shipment_tests_agree_on_allowed_types :
  forall t : string,
  In t ALLOWED_EVENT_TYPES ->
  includes "sales_order_shipment_save_after" t =
  strict_eq_str (VStr t) SHIPMENT_SAVE_AFTER.
Proof.
  unfold ALLOWED_EVENT_TYPES.
  intros t [<-|[<-|[<-|[<-|[]]]]]; reflexivity.
Qed.

Lemma shipment_tests_agree_on_allowed_types_witness :
  includes "sales_order_shipment_save_after" SAVE_AFTER =
  strict_eq_str (VStr SAVE_AFTER) SHIPMENT_SAVE_AFTER.
Proof.
  apply shipment_tests_agree_on_allowed_types. right. left. reflexivity.
Defined.

(** X15.  [extractEventData] on a string event type returns one of two
    shapes.  For a shipment event: the error "Missing shipment data" (never
    "Missing order data"), or a truthy order together with shipment data
    that is null or truthy.  For any other event: the error "Missing order
    data", or a truthy order together with null shipment data, also when
    the payload carries a [shipment]. *)
Theorem extractEventData_shapes :
  forall (params : obj) (t : string) (v : value),
  extractEventData params (VStr t) = Ok v ->
  (includes "sales_order_shipment_save_after" t = true ->
   v = VObj [("error", errorResponse 400 "Missing shipment data")] \/
   exists orderData shipmentData : value,
     v = VObj [("orderData", orderData); ("shipmentData", shipmentData)] /\
     truthy orderData = true /\
     (shipmentData = VNull \/ truthy shipmentData = true)) /\
  (includes "sales_order_shipment_save_after" t = false ->
   v = VObj [("error", errorResponse 400 "Missing order data")] \/
   exists orderData : value,
     v = VObj [("orderData", orderData); ("shipmentData", VNull)] /\
     truthy orderData = true).
Proof.
  intros params t v. unfold extractEventData. cbn [js_includes Js.bind].
  pose proof (extractOrderData_truthy (lookup "data" params)
                (includes "sales_order_shipment_save_after" t)) as Ht.
  cbv zeta in Ht.
  destruct (includes "sales_order_shipment_save_after" t) eqn:Hship;
    cbv iota in Ht.
  - intros H. split; [intros _ | discriminate].
    destruct (truthy (extractOrderData _ _ _)) eqn:Ho; cbn [negb] in H.
    + injection H as <-. right. eexists. eexists.
      split; [reflexivity|]. split; [exact Ho|].
      unfold extractShipmentData, js_or.
      destruct (truthy (opt_get (opt_get (lookup "data" params) "value") "shipment"))
        eqn:Hs; [right; exact Hs | left; reflexivity].
    + (* the order is falsy only when [data.value] is, and then so is the
         shipment *)
      rewrite ?Ho in Ht. symmetry in Ht.
      unfold extractShipmentData in H.
      rewrite (opt_get_falsy _ "shipment" Ht) in H. cbn in H.
      injection H as <-. left. reflexivity.
  - intros H. split; [discriminate | intros _].
    destruct (truthy (extractOrderData _ _ _)) eqn:Ho; cbn [negb andb] in H;
      injection H as <-.
    + right. eexists. split; [reflexivity | exact Ho].
    + left. reflexivity.
Qed.

Lemma extractEventData_shapes_witness :
  VObj [("error", errorResponse 400 "Missing shipment data")] =
  VObj [("error", errorResponse 400 "Missing shipment data")] \/
  exists orderData shipmentData : value,
    VObj [("error", errorResponse 400 "Missing shipment data")] =
    VObj [("orderData", orderData); ("shipmentData", shipmentData)] /\
    truthy orderData = true /\
    (shipmentData = VNull \/ truthy shipmentData = true).
Proof.
  exact (proj1 (extractEventData_shapes (event_with_data (VObj []))
                  SHIPMENT_SAVE_AFTER _ eq_refl) eq_refl).
Defined.

Lemma js_or_truthy (a b : value) : truthy a = true -> js_or a b = a.
Proof. unfold js_or. intros ->. reflexivity. Qed.

(** X16.  For a shipment event whose [data.value.shipment] is truthy, the
    order nested in the shipment wins: when [shipment.order] is truthy it
    is the order that [extractEventData] returns, whatever
    [data.value.order] holds, and the shipment is returned with it. *)
Theorem extractEventData_prefers_shipment_order :
  forall (params : obj) (t : string),
  let shipment := opt_get (opt_get (lookup "data" params) "value") "shipment" in
  includes "sales_order_shipment_save_after" t = true ->
  truthy shipment = true ->
  truthy (opt_get shipment "order") = true ->
  extractEventData params (VStr t) =
  Ok (VObj [("orderData", opt_get shipment "order"); ("shipmentData", shipment)]).
Proof.
  intros params t shipment Hship Hs Ho.
  unfold extractEventData. cbn [js_includes Js.bind]. rewrite Hship.
  unfold extractShipmentData. fold shipment.
  rewrite (js_or_truthy shipment VNull Hs).
  unfold extractOrderData. rewrite Hs. cbn [andb].
  rewrite (js_or_truthy (opt_get shipment "order") _ Ho).
  rewrite (js_or_truthy (opt_get shipment "order") _ Ho).
  rewrite (js_or_truthy (opt_get shipment "order") VNull Ho).
  rewrite Ho. reflexivity.
Qed.

Lemma extractEventData_prefers_shipment_order_witness :
  extractEventData
    (event_with_data
       (VObj [("value",
               VObj [("order", VObj [("increment_id", VStr "1")]);
                     ("shipment", VObj [("order", VObj [("increment_id", VStr "2")])])])]))
    (VStr SHIPMENT_SAVE_AFTER) =
  Ok (VObj [("orderData", VObj [("increment_id", VStr "2")]);
            ("shipmentData", VObj [("order", VObj [("increment_id", VStr "2")])])]).
Proof.
  exact (extractEventData_prefers_shipment_order
           (event_with_data
              (VObj [("value",
                      VObj [("order", VObj [("increment_id", VStr "1")]);
                            ("shipment",
                             VObj [("order", VObj [("increment_id", VStr "2")])])])]))
           SHIPMENT_SAVE_AFTER eq_refl eq_refl eq_refl).
Defined.

(** ** Message generator *)

(** A generated message has printed the customer name and the order
    number. *)
Lemma generateMessageByEventType_greets_core
  (eventType orderData customerName orderNumber shipmentData : value) (text : string) :
  generateMessageByEventType eventType orderData customerName orderNumber
    shipmentData = Ok text ->
  printable customerName = true /\ printable orderNumber = true.
Proof.
  destruct (nullish orderData) eqn:Hn.
  { destruct orderData; try discriminate Hn; discriminate. }
  rewrite (generateMessageByEventType_defined _ _ _ _ _ Hn). cbv zeta.
  unfold generateCancellationMessage, generateOrderPlacedMessage,
    generateShipmentMessage, generateOrderStatusChangeMessage, printable.
  destruct (toString customerName) as [name|e]; cbn [Js.bind].
  2:{ repeat match goal with |- context [if ?c then _ else _] => destruct c end;
        discriminate. }
  destruct (toString orderNumber) as [order|e]; cbn [Js.bind].
  2:{ repeat match goal with |- context [if ?c then _ else _] => destruct c end;
        discriminate. }
  intros _. split; reflexivity.
Qed.

(** X17.  Every message that [generateMessageByEventType] produces, for
    whatever event type, opens with the greeting of the customer and the
    order number: "Hi <name>, your order #<number>", with the printed
    customer name and order number. *)
Theorem generateMessageByEventType_greets :
  forall eventType orderData customerName orderNumber shipmentData : value,
  forall text : string,
  generateMessageByEventType eventType orderData customerName orderNumber
    shipmentData = Ok text ->
  exists name order rest : string,
    toString customerName = Ok name /\ toString orderNumber = Ok order /\
    text = "Hi " ++ name ++ ", your order #" ++ order ++ rest.
Proof.
  intros eventType orderData customerName orderNumber shipmentData text.
  destruct (nullish orderData) eqn:Hn.
  { destruct orderData; try discriminate Hn; discriminate. }
  rewrite (generateMessageByEventType_defined _ _ _ _ _ Hn). cbv zeta.
  unfold generateCancellationMessage, generateOrderPlacedMessage,
    generateShipmentMessage, generateOrderStatusChangeMessage.
  destruct (toString customerName) as [name|e]; cbn [Js.bind].
  2:{ repeat match goal with |- context [if ?c then _ else _] => destruct c end;
        discriminate. }
  destruct (toString orderNumber) as [order|e]; cbn [Js.bind].
  2:{ repeat match goal with |- context [if ?c then _ else _] => destruct c end;
        discriminate. }
  intros H. exists name, order.
  repeat match type of H with context [if ?c then _ else _] => destruct c end;
    repeat match type of H with
           | context [toString ?v] => destruct (toString v); cbn [Js.bind] in H
           end;
    try discriminate H; injection H as <-; eexists; repeat split; reflexivity.
Qed.

Lemma generateMessageByEventType_greets_witness :
  exists name order rest : string,
    toString (VStr "Jane Doe") = Ok name /\ toString (VStr "000000009") = Ok order /\
    "Hi Jane Doe, your order #000000009 status has been updated to processing." =
    "Hi " ++ name ++ ", your order #" ++ order ++ rest.
Proof.
  exact (generateMessageByEventType_greets (VStr SAVE_AFTER) order_processing
           (VStr "Jane Doe") (VStr "000000009") VNull _ eq_refl).
Defined.

(** X18.  [generateMessageByEventType] throws exactly when [orderData] is
    null or undefined (for every event type: the order fields are read
    before the dispatch, so even the cancellation message needs an order)
    or when one of the values that the chosen message prints cannot be
    printed: the customer name, the order number, and the total and the
    currency, the tracking number or the status, according to the
    event. *)
Theorem generateMessageByEventType_throws_iff :
  forall eventType orderData customerName orderNumber shipmentData : value,
  (exists e : JsError,
     generateMessageByEventType eventType orderData customerName orderNumber
       shipmentData = Throw e) <->
  nullish orderData = true \/
  existsb (fun v => negb (printable v))
    (customerName :: orderNumber :: printed_fields eventType orderData shipmentData)
  = true.
Proof.
  intros eventType orderData customerName orderNumber shipmentData.
  destruct (nullish orderData) eqn:Hn.
  { split; [intros _; left; reflexivity|].
    intros _. destruct orderData; try discriminate Hn; eexists; reflexivity. }
  rewrite (generateMessageByEventType_defined _ _ _ _ _ Hn). cbv zeta.
  unfold printed_fields, inline_tracking. cbv zeta.
  unfold generateCancellationMessage, generateOrderPlacedMessage,
    generateShipmentMessage, generateOrderStatusChangeMessage, printable.
  repeat match goal with |- context [if ?c then _ else _] =>
           lazymatch c with
           | strict_eq_str _ _ => destruct c
           | (strict_eq_str _ _ && _)%bool => destruct c
           | truthy _ => destruct c
           end
         end;
    cbn [existsb];
    repeat match goal with
           | |- context [toString ?v] => destruct (toString v); cbn [Js.bind negb orb]
           end;
    (split;
     [ intros [err Herr]; try discriminate Herr; right; reflexivity
     | intros [Hcase|Hcase]; try discriminate Hcase; eexists; reflexivity ]).
Qed.

Lemma generateMessageByEventType_throws_iff_witness :
  (exists e : JsError,
     generateMessageByEventType (VStr CANCEL_AFTER) VNull (VStr "Bob Johnson")
       (VStr "000000011") VNull = Throw e) /\
  (exists e : JsError,
     generateMessageByEventType (VStr PLACE_AFTER)
       (VObj [("grand_total", VObj [("toString", VNum 1)])])
       (VStr "Test Customer") (VStr "000000008") VNull = Throw e).
Proof.
  split.
  - apply (proj2 (generateMessageByEventType_throws_iff (VStr CANCEL_AFTER) VNull
                    (VStr "Bob Johnson") (VStr "000000011") VNull)).
    left. reflexivity.
  - apply (proj2 (generateMessageByEventType_throws_iff (VStr PLACE_AFTER)
                    (VObj [("grand_total", VObj [("toString", VNum 1)])])
                    (VStr "Test Customer") (VStr "000000008") VNull)).
    right. reflexivity.
Defined.

(** ** Twilio service *)

Lemma formatPhoneForWhatsApp_truthy (v w : value) :
  formatPhoneForWhatsApp v = Ok w -> truthy w = true ->
  exists n : string,
    formatPhoneNumber v = Ok (VStr n) /\ startsWith "+" n = true /\
    w = VStr ("whatsapp:" ++ n).
Proof.
  unfold formatPhoneForWhatsApp.
  destruct (formatPhoneNumber v) as [f|e] eqn:Hf; cbn [Js.bind]; [|discriminate].
  destruct (truthy f) eqn:Htf; cbn [negb]; [|intros [= <-]; discriminate].
  destruct f as [| |b|k|n|items|props]; try discriminate.
  assert (Hplus : startsWith "+" n = true).
  { destruct v as [| |b|k|s|items|props]; try discriminate Hf.
    - destruct b; discriminate Hf.
    - unfold formatPhoneNumber in Hf. destruct k as [z|positive text]; simpl in Hf;
        [destruct (z =? 0)|]; discriminate Hf.
    - exact (formatPhoneNumber_starts_with_plus s n Hf). }
  rewrite (starts_with_plus_not_whatsapp n Hplus).
  intros [= <-] _. exists n. split; [reflexivity|]. split; [exact Hplus | reflexivity].
Qed.

(** X19.  [sendWhatsAppMessage] calls into the SDK at most twice and in a
    fixed order: nothing when the configuration is incomplete, else the
    construction of a client, followed by at most one [messages.create].
    That call carries the configured sender, the given message and a
    recipient of the form "whatsapp:+...", the formatted telephone
    number; no message goes to a recipient of another form. *)
Theorem sendWhatsAppMessage_calls :
  forall (twilio : value -> value -> result Client) (config : TwilioConfig)
         (toPhoneNumber message : value),
  let calls := fst (sendWhatsAppMessage twilio config toPhoneNumber message) in
  let started := TwilioClient (accountSid config) (authToken config) in
  (config_missing config = true /\ calls = []) \/
  (config_missing config = false /\
   (calls = [started] \/
    exists n : string,
      formatPhoneNumber toPhoneNumber = Ok (VStr n) /\ startsWith "+" n = true /\
      calls = [started;
               MessagesCreate (fromNumber config) (VStr ("whatsapp:" ++ n)) message])).
Proof.
  intros twilio config toPhoneNumber message calls started. subst calls started.
  unfold sendWhatsAppMessage. fold (config_missing config).
  destruct (config_missing config); [left; split; reflexivity|].
  right. split; [reflexivity|].
  unfold new_client, messages_create, emit, lift, throw, ret.
  destruct (twilio (accountSid config) (authToken config)) as [client|e];
    [|left; reflexivity].
  cbn [bindM app].
  destruct (formatPhoneForWhatsApp toPhoneNumber) as [w|e] eqn:Hw;
    [|left; reflexivity].
  cbv zeta. destruct (truthy w) eqn:Htw; cbn [negb]; [|left; reflexivity].
  destruct (formatPhoneForWhatsApp_truthy _ _ Hw Htw) as [n [Hn [Hplus ->]]].
  right. exists n. split; [exact Hn|]. split; [exact Hplus|].
  cbn [bindM app].
  destruct (client (fromNumber config) (VStr ("whatsapp:" ++ n)) message) as [m|e];
    [|reflexivity].
  destruct (get m "sid") as [sid|e]; [|reflexivity].
  destruct (get m "status") as [status|e]; reflexivity.
Qed.

(** X20.  [sendWhatsAppMessage] reports success only when the provider
    has accepted the message: a result with [success] true means that the
    configuration was complete, the client was constructed and its
    [messages.create] resolved, and [messageSid] and [status] are those of
    the provider's answer. *)
Theorem sendWhatsAppMessage_success_means_sent :
  forall (twilio : value -> value -> result Client) (config : TwilioConfig)
         (toPhoneNumber message v : value) (calls : list event),
  sendWhatsAppMessage twilio config toPhoneNumber message = (calls, Ok v) ->
  opt_get v "success" = VBool true ->
  config_missing config = false /\
  exists (client : Client) (n : string) (answer : value),
    twilio (accountSid config) (authToken config) = Ok client /\
    formatPhoneNumber toPhoneNumber = Ok (VStr n) /\
    client (fromNumber config) (VStr ("whatsapp:" ++ n)) message = Ok answer /\
    calls = [TwilioClient (accountSid config) (authToken config);
             MessagesCreate (fromNumber config) (VStr ("whatsapp:" ++ n)) message] /\
    v = VObj [("success", VBool true);
              ("messageSid", opt_get answer "sid");
              ("status", opt_get answer "status")].
Proof.
  intros twilio config toPhoneNumber message v calls.
  unfold sendWhatsAppMessage. fold (config_missing config).
  destruct (config_missing config); [intros [= _ <-]; discriminate|].
  unfold new_client, messages_create, emit, lift, throw, ret.
  destruct (twilio (accountSid config) (authToken config)) as [client|e] eqn:Hc.
  2:{ simpl. intros [= _ <-]. unfold js_or.
      destruct (truthy (VStr (Js.message e))); discriminate. }
  cbn [bindM app].
  destruct (formatPhoneForWhatsApp toPhoneNumber) as [w|e] eqn:Hw.
  2:{ simpl. intros [= _ <-]. unfold js_or.
      destruct (truthy (VStr (Js.message e))); discriminate. }
  cbv zeta. destruct (truthy w) eqn:Htw; cbn [negb].
  2:{ simpl. intros [= _ <-]. discriminate. }
  destruct (formatPhoneForWhatsApp_truthy _ _ Hw Htw) as [n [Hn [Hplus ->]]].
  cbn [bindM app].
  destruct (client (fromNumber config) (VStr ("whatsapp:" ++ n)) message)
    as [m|e] eqn:Hm.
  2:{ simpl. intros [= _ <-]. unfold js_or.
      destruct (truthy (VStr (Js.message e))); discriminate. }
  destruct (nullish m) eqn:Hnull.
  { destruct m; try discriminate Hnull; simpl; intros [= _ <-]; discriminate. }
  rewrite !(get_defined m) by exact Hnull.
  cbn [bindM app try_catch]. intros [= <- <-] _.
  split; [reflexivity|]. exists client, n, m.
  repeat split; try reflexivity; assumption.
Qed.

Lemma sendWhatsAppMessage_success_means_sent_witness :
  exists (client : Client) (n : string) (answer : value),
    twilio_resolves (accountSid test_config) (authToken test_config) = Ok client /\
    formatPhoneNumber (VStr "1234567890") = Ok (VStr n) /\
    client (fromNumber test_config) (VStr ("whatsapp:" ++ n)) (VStr "Hi") = Ok answer.
Proof.
  destruct (sendWhatsAppMessage_success_means_sent twilio_resolves test_config
              (VStr "1234567890") (VStr "Hi") _ _ eq_refl eq_refl)
    as [_ [client [n [answer [H1 [H2 [H3 _]]]]]]].
  exists client, n, answer. split; [exact H1|]. split; [exact H2 | exact H3].
Defined.

(** ** Orchestrator *)

(** X21.  Every response of [main] has one of four shapes: the echo of
    the challenge, a 400 error response, the 500 error response "Internal
    server error", or the 200 response whose body reports the processed
    order; [main] itself never throws. *)
Theorem main_response_shapes :
  forall (string_is_positive : string -> bool)
         (twilio : value -> value -> result Client) (params : obj),
  exists (calls : list event) (resp : value),
    main string_is_positive twilio params = (calls, Ok resp) /\
    (resp = VObj [("statusCode", VNum 200);
                  ("body", VObj [("challenge", lookup "challenge" params)])] \/
     (exists msg : string, resp = errorResponse 400 msg) \/
     resp = errorResponse 500 "Internal server error" \/
     exists (orderNumber customerPhone twilioResult : value),
       send_result twilioResult /\
       resp = VObj [("statusCode", VNum 200);
                    ("body", VObj (response_body orderNumber customerPhone
                                                 twilioResult))]).
Proof.
  intros sip twilio params.
  destruct (truthy (lookup "challenge" params)) eqn:Hch.
  { unfold main, main_try. rewrite Hch. eexists. eexists.
    split; [reflexivity|]. left. reflexivity. }
  unfold main.
  destruct (main_try sip twilio params) as [calls [resp|e]] eqn:Htry;
    cbn [try_catch ret].
  - exists calls, resp. split; [reflexivity|].
    destruct (main_try_value _ _ _ _ _ Hch Htry)
      as [[code [msg Hresp]] | [orderNumber [customerPhone [tr [Hshape Hresp]]]]].
    + pose proof (main_try_outcome _ _ _ _ _ Hch Htry) as Hout. cbv beta iota in Hout.
      destruct Hout as [[_ [msg' Hm]] | [on [cp [tr [text [_ [_ Hm]]]]]]].
      * right. left. exists msg'. exact Hm.
      * rewrite Hm in Hresp. discriminate Hresp.
    + right. right. right. exists orderNumber, customerPhone, tr.
      split; [exact Hshape | exact Hresp].
  - eexists. eexists. split; [reflexivity|]. right. right. left. reflexivity.
Qed.

(** X22.  [main] calls into the SDK only on the way to the 200 response
    of a processed order: when the response is an error response, or the
    echo of a challenge, no call was made. *)
Theorem main_calls_only_when_processed :
  forall (string_is_positive : string -> bool)
         (twilio : value -> value -> result Client) (params : obj)
         (calls : list event) (resp : value),
  main string_is_positive twilio params = (calls, Ok resp) ->
  calls <> [] ->
  truthy (lookup "challenge" params) = false /\
  opt_get resp "statusCode" = VNum 200 /\
  exists body : obj,
    opt_get resp "body" = VObj body /\
    lookup "message" body = VStr "Order notification processed" /\
    truthy (lookup "customerPhone" body) = true.
Proof.
  intros sip twilio params calls resp Hmain Hcalls.
  destruct (truthy (lookup "challenge" params)) eqn:Hch.
  { unfold main, main_try in Hmain. rewrite Hch in Hmain.
    injection Hmain as <- _. now elim Hcalls. }
  split; [reflexivity|]. unfold main in Hmain.
  destruct (main_try sip twilio params) as [t [r|e]] eqn:Htry;
    cbn [try_catch ret] in Hmain.
  - injection Hmain as -> ->.
    pose proof (main_try_outcome _ _ _ _ _ Hch Htry) as Hout. cbv beta iota in Hout.
    destruct Hout as [[Hnil _] | [on [cp [tr [text [Hcp [_ ->]]]]]]];
      [contradiction|].
    split; [reflexivity|]. eexists. split; [reflexivity|].
    split; [reflexivity | exact Hcp].
  - pose proof (main_try_outcome _ _ _ _ _ Hch Htry) as Hout. cbv beta iota in Hout.
    injection Hmain as <- _. rewrite app_nil_r in Hcalls. contradiction.
Qed.

Lemma main_calls_only_when_processed_witness :
  exists (calls : list event) (resp : value),
    main (fun _ => false) twilio_rejects eventWithTwilio = (calls, Ok resp) /\
    opt_get resp "statusCode" = VNum 200.
Proof.
  eexists. eexists. split; [reflexivity|].
  exact (proj1 (proj2 (main_calls_only_when_processed (fun _ => false)
           twilio_rejects eventWithTwilio _ _ eq_refl ltac:(discriminate)))).
Defined.

(** X23.  Without a challenge, [main] hands back the error response of
    [validateEvent] unchanged and looks no further, and answers an
    exception of the validation with the 500 response; in both cases no
    call into the SDK is made. *)
Theorem main_returns_validation_error :
  forall (string_is_positive : string -> bool)
         (twilio : value -> value -> result Client) (params : obj),
  truthy (lookup "challenge" params) = false ->
  (forall err : value,
     validateEvent params = Ok err -> truthy err = true ->
     main string_is_positive twilio params = ([], Ok err)) /\
  (forall e : JsError,
     validateEvent params = Throw e ->
     main string_is_positive twilio params =
     ([], Ok (errorResponse 500 "Internal server error"))).
Proof.
  intros sip twilio params Hch. unfold main, main_try. rewrite Hch.
  rewrite bindM_lift. split.
  - intros err -> Herr. rewrite Herr. reflexivity.
  - intros e ->. reflexivity.
Qed.

Lemma main_returns_validation_error_witness :
  main (fun _ => false) twilio_resolves
       (envelope (VStr "com.example.event") (VStr "com.example")) =
    ([], Ok (errorResponse 400 "Invalid event source - not a Commerce event")) /\
  main (fun _ => false) twilio_resolves
       (envelope (VNum 42) (VStr "com.adobe.commerce")) =
    ([], Ok (errorResponse 500 "Internal server error")).
Proof.
  split.
  - exact (proj1 (main_returns_validation_error (fun _ => false) twilio_resolves
             (envelope (VStr "com.example.event") (VStr "com.example")) eq_refl)
             _ eq_refl eq_refl).
  - exact (proj2 (main_returns_validation_error (fun _ => false) twilio_resolves
             (envelope (VNum 42) (VStr "com.adobe.commerce")) eq_refl)
             (Error "includes is not a function") eq_refl).
Defined.

Lemma truthy_not_nullish (v : value) : truthy v = true -> nullish v = false.
Proof. destruct v; simpl; intros H; (reflexivity || discriminate). Qed.

Lemma printable_true (v : value) :
  printable v = true -> exists line : string, toString v = Ok line.
Proof.
  unfold printable. destruct (toString v) as [line|e]; [|discriminate].
  intros _. exists line. reflexivity.
Qed.

Lemma printable_false (v : value) :
  printable v = false -> exists e : JsError, toString v = Throw e.
Proof.
  unfold printable. destruct (toString v) as [line|e]; [discriminate|].
  intros _. exists e. reflexivity.
Qed.

(** The fields of the result of [extractOrderInfo] that [main] reads. *)
Lemma extractOrderInfo_fields (orderData info : value) :
  extractOrderInfo orderData = Ok info ->
  opt_get info "orderNumber" =
    js_or (opt_get orderData "increment_id") (opt_get orderData "entity_id") /\
  opt_get info "customerEmail" = opt_get orderData "customer_email".
Proof.
  intros Hi.
  assert (Ho : nullish orderData = false).
  { destruct orderData; try reflexivity; discriminate Hi. }
  unfold extractOrderInfo in Hi.
  rewrite !(get_defined orderData) in Hi by exact Ho. cbn [Js.bind] in Hi.
  destruct (toString (js_or (opt_get orderData "customer_firstname") (VStr "")));
    cbn [Js.bind] in Hi; [|discriminate Hi].
  destruct (toString (js_or (opt_get orderData "customer_lastname") (VStr "")));
    cbn [Js.bind] in Hi; [|discriminate Hi].
  injection Hi as <-. split; reflexivity.
Qed.

(** The steps of [main] up to the line of the log that prints the order
    number and the customer's e-mail address. *)
Lemma main_try_after_order_info
  (string_is_positive : string -> bool) (twilio : value -> value -> result Client)
  (params : obj) (orderData shipmentData info : value) :
  truthy (lookup "challenge" params) = false ->
  validateEvent params = Ok VNull ->
  extractEventData params (lookup "type" params) =
    Ok (VObj [("orderData", orderData); ("shipmentData", shipmentData)]) ->
  extractOrderInfo orderData = Ok info ->
  (printable (opt_get info "orderNumber") = false \/
   printable (opt_get info "customerEmail") = false ->
   exists e : JsError, main_try string_is_positive twilio params = ([], Throw e)) /\
  (printable (opt_get info "orderNumber") = true ->
   printable (opt_get info "customerEmail") = true ->
   main_try string_is_positive twilio params =
   bindM (lift (extractPhoneNumberFromOrder string_is_positive orderData))
     (fun customerPhone =>
        if negb (truthy customerPhone)
        then ret (errorResponse 400 "Customer phone number not found")
        else
          bindM (lift (generateMessageByEventType (lookup "type" params) orderData
                         (opt_get info "customerName") (opt_get info "orderNumber")
                         shipmentData))
            (fun message =>
               bindM (sendWhatsAppMessage twilio (twilio_config_of params)
                        customerPhone (VStr message))
                 (fun twilioResult =>
                    bindM (lift (toString (opt_get twilioResult "success")))
                      (fun _ =>
                         ret (VObj [("statusCode", VNum 200);
                                    ("body",
                                     VObj (response_body (opt_get info "orderNumber")
                                             customerPhone twilioResult))])))))).
Proof.
  intros Hch Hv He Hi.
  destruct (validateEvent_null_type params Hv) as [_ [t [Ht _]]].
  assert (Hstart :
    main_try string_is_positive twilio params =
    bindM (lift (toString (opt_get info "orderNumber")))
      (fun _ =>
         bindM (lift (toString (opt_get info "customerEmail")))
           (fun _ =>
   bindM (lift (extractPhoneNumberFromOrder string_is_positive orderData))
     (fun customerPhone =>
        if negb (truthy customerPhone)
        then bindM (lift (toString (opt_get info "orderNumber")))
               (fun _ => ret (errorResponse 400 "Customer phone number not found"))
        else
          bindM (lift (generateMessageByEventType (lookup "type" params) orderData
                         (opt_get info "customerName") (opt_get info "orderNumber")
                         shipmentData))
            (fun message =>
               bindM (sendWhatsAppMessage twilio (twilio_config_of params)
                        customerPhone (VStr message))
                 (fun twilioResult =>
                    bindM (lift (toString (opt_get twilioResult "success")))
                      (fun _ =>
                         ret (VObj [("statusCode", VNum 200);
                                    ("body",
                                     VObj (response_body (opt_get info "orderNumber")
                                             customerPhone twilioResult))])))))))).
  { unfold main_try. rewrite Hch, bindM_lift, Hv. cbn [truthy].
    rewrite bindM_lift, Ht. cbn [toString]. rewrite <- Ht.
    rewrite bindM_lift, He.
    cbn [opt_get lookup String.eqb Ascii.eqb Bool.eqb truthy]. cbv zeta.
    rewrite bindM_lift, Hi. reflexivity. }
  rewrite Hstart. split.
  - intros [Hn | Hm].
    + destruct (printable_false _ Hn) as [e ->]. exists e. reflexivity.
    + destruct (toString (opt_get info "orderNumber")) as [line|e];
        [|exists e; reflexivity].
      destruct (printable_false _ Hm) as [e ->]. exists e.
      rewrite bindM_lift. reflexivity.
  - intros Hn Hm.
    destruct (printable_true _ Hn) as [number ->].
    destruct (printable_true _ Hm) as [email ->].
    rewrite !bindM_lift. reflexivity.
Qed.

(** X24.  When the event is valid and carries an order whose names can be
    printed and in which [extractPhoneNumberFromOrder] finds no telephone,
    [main] answers 400 "Customer phone number not found", provided the
    order number and the customer's e-mail address can be printed for the
    log; when one of them cannot (an object with a [toString] property of
    its own), the line of the log throws and [main] answers 500.  In both
    cases no message is generated and no call into the SDK is made. *)
Theorem main_phone_not_found :
  forall (string_is_positive : string -> bool)
         (twilio : value -> value -> result Client) (params : obj)
         (orderData shipmentData info : value),
  truthy (lookup "challenge" params) = false ->
  validateEvent params = Ok VNull ->
  extractEventData params (lookup "type" params) =
    Ok (VObj [("orderData", orderData); ("shipmentData", shipmentData)]) ->
  extractOrderInfo orderData = Ok info ->
  extractPhoneNumberFromOrder string_is_positive orderData = Ok VNull ->
  let orderNumber :=
    js_or (opt_get orderData "increment_id") (opt_get orderData "entity_id") in
  let customerEmail := opt_get orderData "customer_email" in
  (printable orderNumber = true -> printable customerEmail = true ->
   main string_is_positive twilio params =
   ([], Ok (errorResponse 400 "Customer phone number not found"))) /\
  (printable orderNumber = false \/ printable customerEmail = false ->
   main string_is_positive twilio params =
   ([], Ok (errorResponse 500 "Internal server error"))).
Proof.
  intros sip twilio params orderData shipmentData info Hch Hv He Hi Hp
    orderNumber customerEmail.
  destruct (extractOrderInfo_fields _ _ Hi) as [Hnumber Hemail].
  destruct (main_try_after_order_info sip twilio params _ _ _ Hch Hv He Hi)
    as [Hthrow Hgo].
  rewrite Hnumber, Hemail in Hthrow, Hgo. fold orderNumber customerEmail in Hthrow, Hgo.
  unfold main. split.
  - intros Hn Hm. rewrite (Hgo Hn Hm), bindM_lift, Hp. reflexivity.
  - intros H. destruct (Hthrow H) as [e ->]. reflexivity.
Qed.

Lemma main_phone_not_found_witness :
  main (fun _ => false) twilio_resolves eventNoPhone =
    ([], Ok (errorResponse 400 "Customer phone number not found")) /\
  main (fun _ => false) twilio_resolves eventUnprintableNumber =
    ([], Ok (errorResponse 500 "Internal server error")).
Proof.
  split.
  - exact (proj1 (main_phone_not_found (fun _ => false) twilio_resolves eventNoPhone
             (VObj [("increment_id", VStr "000000012"); ("addresses", VArr [VObj []])])
             VNull _ eq_refl eq_refl eq_refl eq_refl eq_refl) eq_refl eq_refl).
  - exact (proj2 (main_phone_not_found (fun _ => false) twilio_resolves
             eventUnprintableNumber
             (VObj [("increment_id", VObj [("toString", VNum 1)])])
             VNull _ eq_refl eq_refl eq_refl eq_refl eq_refl) (or_introl eq_refl)).
Defined.

(** X25.  When the event is valid, carries an order, the order number and
    the customer's e-mail address can be printed for the log, a telephone
    is found and the message is generated, [main] makes exactly the calls
    of [sendWhatsAppMessage] for the configuration taken from the
    [TWILIO_ACCOUNT_SID], [TWILIO_AUTH_TOKEN] and [TWILIO_WHATSAPP_FROM]
    parameters, the telephone as found and the generated message, and
    answers 200 with the order number, the telephone as found (not the
    formatted one) and the outcome of the sending.  When the order number
    or the e-mail address cannot be printed, [main] answers 500 without
    any call. *)
Theorem main_processes_order :
  forall (string_is_positive : string -> bool)
         (twilio : value -> value -> result Client) (params : obj)
         (orderData shipmentData info customerPhone : value) (text : string),
  truthy (lookup "challenge" params) = false ->
  validateEvent params = Ok VNull ->
  extractEventData params (lookup "type" params) =
    Ok (VObj [("orderData", orderData); ("shipmentData", shipmentData)]) ->
  extractOrderInfo orderData = Ok info ->
  extractPhoneNumberFromOrder string_is_positive orderData = Ok customerPhone ->
  truthy customerPhone = true ->
  generateMessageByEventType (lookup "type" params) orderData
    (opt_get info "customerName") (opt_get info "orderNumber") shipmentData = Ok text ->
  let orderNumber :=
    js_or (opt_get orderData "increment_id") (opt_get orderData "entity_id") in
  let customerEmail := opt_get orderData "customer_email" in
  (printable customerEmail = true ->
   exists (calls : list event) (twilioResult : value),
     sendWhatsAppMessage twilio (twilio_config_of params) customerPhone (VStr text) =
       (calls, Ok twilioResult) /\
     main string_is_positive twilio params =
       (calls,
        Ok (VObj [("statusCode", VNum 200);
                  ("body", VObj (response_body orderNumber customerPhone
                                               twilioResult))]))) /\
  (printable customerEmail = false ->
   main string_is_positive twilio params =
   ([], Ok (errorResponse 500 "Internal server error"))).
Proof.
  intros sip twilio params orderData shipmentData info customerPhone text
    Hch Hv He Hi Hp Htp Hg orderNumber customerEmail.
  destruct (extractOrderInfo_fields _ _ Hi) as [Hnumber Hemail].
  destruct (main_try_after_order_info sip twilio params _ _ _ Hch Hv He Hi)
    as [Hthrow Hgo].
  (* the message prints the order number, so it can be printed *)
  assert (Hn : printable orderNumber = true).
  { destruct (generateMessageByEventType_greets_core _ _ _ _ _ _ Hg) as [_ Hprint].
    rewrite Hnumber in Hprint. exact Hprint. }
  rewrite Hnumber, Hemail in Hthrow, Hgo. fold orderNumber customerEmail in Hthrow, Hgo.
  unfold main. split.
  - intros Hm.
    destruct (sendWhatsAppMessage_result twilio (twilio_config_of params)
                customerPhone (VStr text)) as [calls [tr [Hs Hshape]]].
    exists calls, tr. split; [exact Hs|].
    rewrite (Hgo Hn Hm), bindM_lift, Hp, Htp. cbn [negb].
    rewrite Hnumber in Hg. fold orderNumber in Hg.
    rewrite bindM_lift, Hg, Hs. cbn [bindM].
    assert (Hprint : exists line : string, toString (opt_get tr "success") = Ok line).
    { destruct Hshape as [[sid [status ->]] | [msg [_ ->]]]; eexists; reflexivity. }
    destruct Hprint as [sent ->]. rewrite bindM_lift. cbn [ret app try_catch].
    rewrite app_nil_r. reflexivity.
  - intros Hm. destruct (Hthrow (or_intror Hm)) as [e ->]. reflexivity.
Qed.

Lemma main_processes_order_witness :
  exists (calls : list event) (twilioResult : value),
    sendWhatsAppMessage twilio_resolves (twilio_config_of eventWithTwilio)
      (VStr "1234567890")
      (VStr "Hi Test Customer, your order #000000008 for 100 USD has been confirmed. Thank you for your purchase!") =
      (calls, Ok twilioResult) /\
    main (fun _ => false) twilio_resolves eventWithTwilio =
      (calls,
       Ok (VObj [("statusCode", VNum 200);
                 ("body", VObj (response_body (VStr "000000008")
                                              (VStr "1234567890") twilioResult))])).
Proof.
  exact (proj1 (main_processes_order (fun _ => false) twilio_resolves eventWithTwilio
                  order_placed VNull _ (VStr "1234567890") _
                  eq_refl eq_refl eq_refl eq_refl eq_refl eq_refl eq_refl) eq_refl).
Defined.

Example main_unprintable_email :
  main (fun _ => false) twilio_resolves
       (envelope (VStr PLACE_AFTER) (VStr "com.adobe.commerce")
        ++ [("data",
             VObj [("value",
               VObj [("order",
                 VObj [("increment_id", VStr "000000015");
                       ("customer_email", VObj [("toString", VNum 1)]);
                       ("addresses",
                        VArr [VObj [("telephone", VStr "1234567890")]])])])]);
            ("TWILIO_ACCOUNT_SID", VStr "test_sid");
            ("TWILIO_AUTH_TOKEN", VStr "test_token");
            ("TWILIO_WHATSAPP_FROM", VStr "whatsapp:+1234567890")])%list =
  ([], Ok (errorResponse 500 "Internal server error")).
Proof. reflexivity. Qed.
